(** * systemd-docker: a shallow embedding of [main.go]

    The program wraps [docker run] for a service supervisor: it rewrites
    the command line, attaches to or launches a container, tells the
    supervisor the container's host pid over the notify socket, writes a
    pid file, waits for the container and removes it.

    The embedding keeps the names of the Go source.  Go strings are byte
    strings and are modelled by [string]; Go's [int] is modelled by [Z]
    (the program only compares, stores and prints pids, it does no
    arithmetic on them, so no wrap-around is involved).  A [nil]-able
    result that the source tests against [nil] is an [option]. *)

From Stdlib Require Import ZArith String Ascii List Bool Lia.
From Stdlib Require Import DecimalString DecimalZ.
Import ListNotations.

Local Open Scope string_scope.
Local Open Scope list_scope.
Local Open Scope bool_scope.

(** ** Go library functions on strings *)

(** [strings.HasPrefix(s, prefix)]. *)
Fixpoint strings_HasPrefix (s pre : string) {struct pre} : bool :=
  match pre, s with
  | EmptyString, _ => true
  | String c pre', String d s' => Ascii.eqb c d && strings_HasPrefix s' pre'
  | String _ _, EmptyString => false
  end.

(** [s[n:]] for [n <= len(s)]. *)
Fixpoint string_drop (n : nat) (s : string) : string :=
  match n, s with
  | O, _ => s
  | S n', String _ s' => string_drop n' s'
  | S _, EmptyString => EmptyString
  end.

(** The pieces of [s] before and after the first occurrence of [sep]
    ([strings.Cut]); [None] when [sep] does not occur. *)
Fixpoint strings_Cut (s sep : string) : option (string * string) :=
  if strings_HasPrefix s sep
  then Some ("", string_drop (String.length sep) s)
  else match s with
       | EmptyString => None
       | String ch s' =>
           match strings_Cut s' sep with
           | Some (before, after) => Some (String ch before, after)
           | None => None
           end
       end.

(** [strings.Contains(s, substr)]. *)
Definition strings_Contains (s substr : string) : bool :=
  match strings_Cut s substr with Some _ => true | None => false end.

(** [strings.SplitN(s, sep, 2)] for a non-empty separator: at most two
    pieces, split at the first occurrence of [sep]. *)
Definition strings_SplitN2 (s sep : string) : list string :=
  match strings_Cut s sep with
  | Some (before, after) => [before; after]
  | None => [s]
  end.

(** [strconv.Itoa] and the [%d] verb of [fmt.Sprintf]. *)
Definition strconv_Itoa (n : Z) : string :=
  NilEmpty.string_of_int (Z.to_int n).

(** ** Errors *)

(** Go [error] values.  The program builds its own with [errors.New]; the
    libraries hand back others, of which it tells two apart: the docker
    client's [*NoSuchContainer] (by a type assertion) and the errors that
    [os.IsNotExist] recognises. *)
Inductive error : Type :=
| errors_New (msg : string)
| NoSuchContainer (ID : string)
| ErrNotExist (path : string)
| OtherError (msg : string).

Definition os_IsNotExist (err : option error) : bool :=
  match err with Some (ErrNotExist _) => true | _ => false end.

Definition isNoSuchContainer (err : option error) : bool :=
  match err with Some (NoSuchContainer _) => true | _ => false end.

(** The error values the program itself creates. *)
Definition errRunNotFound : error := errors_New "run not found in arguments".
Definition errPidIsZero : error :=
  errors_New "Failed to launch container, pid is 0".
Definition errFailedToFind (id : string) : error :=
  errors_New ("Failed to find container " ++ id).
Definition errPidIs (pid : Z) (id : string) : error :=
  errors_New ("Pid is " ++ strconv_Itoa pid ++ " for container " ++ id).
Definition errEarlyExit : error :=
  errors_New "Container exited before we could notify systemd".

(** ** The docker client's data *)

Module dockerClient.

(** A connected client; only its endpoint matters here. *)
Record Client : Type := { endpoint : string }.

(** [HostConfig] is handed back to [StartContainer] unread. *)
Inductive HostConfig : Type := mkHostConfig (raw : string).

Record State : Type := { Running : bool; Pid : Z }.

Record Container : Type :=
  { ID : string; State_ : State; HostConfig_ : HostConfig }.

Record RemoveContainerOptions : Type := { RmID : string; Force : bool }.

End dockerClient.

(** ** The invocation context *)

Record Context : Type := mkContext
  { Args : list string;
    Logs : bool;
    Notify : bool;
    Name : string;
    Env : bool;
    Rm : bool;
    Id : string;
    NotifySocket : string;
    Cmd : option (string * list string);
    Pid : Z;
    PidFile : string;
    Client : option dockerClient.Client }.

Definition set_Args (v : list string) (c : Context) : Context :=
  mkContext v (Logs c) (Notify c) (Name c) (Env c) (Rm c) (Id c)
            (NotifySocket c) (Cmd c) (Pid c) (PidFile c) (Client c).
Definition set_Notify (v : bool) (c : Context) : Context :=
  mkContext (Args c) (Logs c) v (Name c) (Env c) (Rm c) (Id c)
            (NotifySocket c) (Cmd c) (Pid c) (PidFile c) (Client c).
Definition set_Id (v : string) (c : Context) : Context :=
  mkContext (Args c) (Logs c) (Notify c) (Name c) (Env c) (Rm c) v
            (NotifySocket c) (Cmd c) (Pid c) (PidFile c) (Client c).
Definition set_Pid (v : Z) (c : Context) : Context :=
  mkContext (Args c) (Logs c) (Notify c) (Name c) (Env c) (Rm c) (Id c)
            (NotifySocket c) (Cmd c) v (PidFile c) (Client c).
Definition set_Cmd (v : option (string * list string)) (c : Context)
  : Context :=
  mkContext (Args c) (Logs c) (Notify c) (Name c) (Env c) (Rm c) (Id c)
            (NotifySocket c) v (Pid c) (PidFile c) (Client c).

(** ** The process environment *)

(** [os.Environ()] is a list of entries, by convention of the form
    [key=value].  The key of an entry is what stands before its first
    [=]; an entry without [=] has none. *)
Definition envKey (entry : string) : option string :=
  match strings_Cut entry "=" with
  | Some (key, _) => Some key
  | None => None
  end.

Definition isKeyValue (entry : string) : bool := strings_Contains entry "=".

(** [os.Getenv(key)]: the value of the first entry with that key, the
    empty string when there is none. *)
Fixpoint os_Getenv (environ : list string) (key : string) : string :=
  match environ with
  | [] => ""
  | entry :: rest =>
      match strings_Cut entry "=" with
      | Some (k, v) => if String.eqb k key then v else os_Getenv rest key
      | None => os_Getenv rest key
      end
  end.

(** ** Argument rewriting *)

(** The tool's own flags, as [flags.Parse] leaves them in the context. *)
Record OwnFlags : Type :=
  { flag_PidFile : string; flag_Logs : bool;
    flag_Notify : bool; flag_Env : bool }.

(** The flag grammar belongs to the [pflag] library; the program only
    declares four flags ([--pid-file/-p], [--logs/-l], [--notify/-n],
    [--env/-e]) and calls [Parse] on the arguments before [run]. *)
Class FlagGrammar : Type :=
  { flags_Parse : list string -> OwnFlags + error }.

Definition isRm (arg : string) : bool :=
  String.eqb arg "-rm" || String.eqb arg "--rm".

Definition isDetach (arg : string) : bool :=
  String.eqb arg "-d" || String.eqb arg "-detach" || String.eqb arg "--detach".

Definition isNameFlag (arg : string) : bool :=
  strings_HasPrefix arg "-name" || strings_HasPrefix arg "--name".

(** [findRunArg]: the index of the first [run], or [-1]. *)
Fixpoint findRunArg (args : list string) : Z :=
  match args with
  | [] => -1
  | arg :: rest =>
      if String.eqb arg "run" then 0
      else let i := findRunArg rest in
           if (i <? 0)%Z then -1 else (i + 1)%Z
  end.

(** The locals of the scan loop of [parseContext]. *)
Record Scan : Type := mkScan
  { scan_Rm : bool; scan_foundD : bool;
    scan_name : string; scan_newArgs : list string }.

(** One iteration of [for i, arg := range runArgs]; [rest] is
    [runArgs[i+1:]], so [len(runArgs) > i+1] says that [rest] is not empty
    and [runArgs[i+1]] is its head.  The index [1] of the [SplitN] result
    exists because the token contains [=]. *)
Definition scanStep (arg : string) (rest : list string) (s : Scan) : Scan :=
  let '(s1, add) :=
    if isRm arg then
      (mkScan true (scan_foundD s) (scan_name s) (scan_newArgs s), false)
    else if isDetach arg then
      (mkScan (scan_Rm s) true (scan_name s) (scan_newArgs s), true)
    else if isNameFlag arg then
      if strings_Contains arg "=" then
        (mkScan (scan_Rm s) (scan_foundD s)
                (nth 1 (strings_SplitN2 arg "=") "") (scan_newArgs s), true)
      else
        match rest with
        | next :: _ =>
            (mkScan (scan_Rm s) (scan_foundD s) next (scan_newArgs s), true)
        | [] => (s, true)
        end
    else (s, true) in
  if add
  then mkScan (scan_Rm s1) (scan_foundD s1) (scan_name s1)
              (scan_newArgs s1 ++ [arg])
  else s1.

Fixpoint scanLoop (runArgs : list string) (s : Scan) : Scan :=
  match runArgs with
  | [] => s
  | arg :: rest => scanLoop rest (scanStep arg rest s)
  end.

(** Lines 88-118: the scan and the forced [-d]. *)
Definition scanRunArgs (runArgs : list string) : Scan :=
  let s := scanLoop runArgs (mkScan false false "" []) in
  if scan_foundD s then s
  else mkScan (scan_Rm s) (scan_foundD s) (scan_name s)
              ("-d" :: scan_newArgs s).

(** [setupEnvironment]. *)
Definition setupEnvironment (environ : list string) (c : Context) : Context :=
  let '(newArgs, c1) :=
    if Notify c && negb (String.eqb (NotifySocket c) "") then
      (["-e"; ("NOTIFY_SOCKET=" ++ NotifySocket c)%string;
        "-v"; (NotifySocket c ++ ":" ++ NotifySocket c)%string], c)
    else ([], set_Notify false c) in
  let newArgs :=
    if Env c1 then
      fold_left
        (fun acc val =>
           if negb (strings_HasPrefix val "HOME=")
              && negb (strings_HasPrefix val "PATH=")
           then acc ++ ["-e"; val] else acc)
        environ newArgs
    else newArgs in
  match newArgs with
  | [] => c1
  | _ => set_Args (newArgs ++ Args c1) c1
  end.

(** [parseContext]: [ownArgs] is [args[:i]] and [runArgs] is [args[i+1:]],
    [i] being the index of the first [run]. *)
Definition parseContext `{FlagGrammar} (environ : list string)
           (args : list string) : Context + error :=
  let i := findRunArg args in
  if (i <? 0)%Z then inr errRunNotFound
  else
    let ownArgs := firstn (Z.to_nat i) args in
    let runArgs := skipn (Z.to_nat i + 1) args in
    match flags_Parse ownArgs with
    | inr err => inr err
    | inl f =>
        let s := scanRunArgs runArgs in
        let c :=
          mkContext (scan_newArgs s) (flag_Logs f) (flag_Notify f)
                    (scan_name s) (flag_Env f) (scan_Rm s) ""
                    (os_Getenv environ "NOTIFY_SOCKET") None 0%Z
                    (flag_PidFile f) None in
        inl (setupEnvironment environ c)
    end.

(** ** The platform: docker daemon, operating system, supervisor socket *)

(** What [exec.Command("docker", ...)] turns out to do, in the order in
    which [launchContainer] looks at it. *)
Record CmdRun : Type :=
  { StderrPipe : option error;
    StdoutPipe : option error;
    Start : option error;
    ReadAll : string * option error;
    Wait : option error;
    Success : bool }.

(** The calls the program makes to the outside, with their results. *)
Inductive Event : Type :=
| EvInspectContainer (name : string)
    (container : option dockerClient.Container) (err : option error)
| EvRemoveContainer (opts : dockerClient.RemoveContainerOptions)
    (err : option error)
| EvStartContainer (id : string) (hc : dockerClient.HostConfig)
    (err : option error)
| EvCommand (name : string) (args : list string)
| EvStat (path : string) (err : option error)
| EvDial (network address : string) (err : option error)
| EvConnWrite (b : string) (err : option error)
| EvConnClose
| EvWriteFile (filename data : string) (perm : Z) (err : option error).

(** The outside world is a state [W] that every call may change (a
    container or a process can also die between two calls).  Pure library
    functions the program relies on are listed here as well, and so is
    the pid of the running process, which [os.Getpid] returns. *)
Class Platform (W : Type) : Type :=
  { strings_TrimSpace : string -> string;
    dockerClient_NewClient : string -> dockerClient.Client + error;
    client_InspectContainer :
      dockerClient.Client -> string -> W ->
      (option dockerClient.Container * option error) * W;
    client_RemoveContainer :
      dockerClient.Client -> dockerClient.RemoveContainerOptions -> W ->
      option error * W;
    client_StartContainer :
      dockerClient.Client -> string -> dockerClient.HostConfig -> W ->
      option error * W;
    exec_Command : string -> list string -> W -> CmdRun * W;
    os_Stat : string -> W -> option error * W;
    os_Getpid : Z;
    net_Dial : string -> string -> W -> option error * W;
    conn_Write : string -> W -> option error * W;
    conn_Close : W -> W;
    ioutil_WriteFile : string -> string -> Z -> W -> option error * W }.

(** A call either returns or panics (a [nil] dereference). *)
Inductive Outcome (A : Type) : Type :=
| Returned (a : A)
| Panicked.
Arguments Returned {A} a.
Arguments Panicked {A}.

(** The result of running a piece of the program: what it returned, the
    world it left and the calls it made, oldest first. *)
Record Run (W A : Type) : Type := mkRun
  { value : Outcome A; world : W; events : list Event }.
Arguments mkRun {W A} value world events.
Arguments value {W A} r.
Arguments world {W A} r.
Arguments events {W A} r.

Definition M (W A : Type) : Type := W -> Run W A.

Definition ret {W A} (a : A) : M W A := fun w => mkRun (Returned a) w [].

Definition bind {W A B} (m : M W A) (k : A -> M W B) : M W B :=
  fun w =>
    let r := m w in
    match value r with
    | Returned a =>
        let r' := k a (world r) in
        mkRun (value r') (world r') (events r ++ events r')
    | Panicked => mkRun Panicked (world r) (events r)
    end.

Definition panic {W A} : M W A := fun w => mkRun Panicked w [].

(** An outside call, recorded with its result. *)
Definition call {W A} (op : W -> A * W) (ev : A -> Event) : M W A :=
  fun w => let '(a, w') := op w in mkRun (Returned a) w' [ev a].

Declare Scope go_scope.
Delimit Scope go_scope with go.
Notation "x <- m ;; k" := (bind m (fun x => k))
  (at level 100, m at next level, right associativity) : go_scope.
Notation "' p <- m ;; k" := (bind m (fun x => let 'p := x in k))
  (at level 100, p pattern, m at next level, right associativity) : go_scope.
Local Open Scope go_scope.

Section Program.

Context {W : Type} {P : Platform W}.

(** The process environment, which the program reads and never
    changes. *)
Variable environ : list string.

Definition InspectContainer (cl : dockerClient.Client) (name : string)
  : M W (option dockerClient.Container * option error) :=
  call (client_InspectContainer cl name)
       (fun r => EvInspectContainer name (fst r) (snd r)).

Definition RemoveContainer (cl : dockerClient.Client)
           (opts : dockerClient.RemoveContainerOptions)
  : M W (option error) :=
  call (client_RemoveContainer cl opts) (EvRemoveContainer opts).

Definition StartContainer (cl : dockerClient.Client) (id : string)
           (hc : dockerClient.HostConfig) : M W (option error) :=
  call (client_StartContainer cl id hc) (EvStartContainer id hc).

Definition Command (name : string) (args : list string) : M W CmdRun :=
  call (exec_Command name args) (fun _ => EvCommand name args).

Definition Stat (path : string) : M W (option error) :=
  call (os_Stat path) (EvStat path).

Definition Getpid : M W Z := ret os_Getpid.

Definition Dial (network address : string) : M W (option error) :=
  call (net_Dial network address) (EvDial network address).

Definition connWrite (b : string) : M W (option error) :=
  call (conn_Write b) (EvConnWrite b).

Definition connClose : M W unit :=
  fun w => mkRun (Returned tt) (conn_Close w) [EvConnClose].

Definition WriteFile (filename data : string) (perm : Z)
  : M W (option error) :=
  call (ioutil_WriteFile filename data perm) (EvWriteFile filename data perm).

(** [getClient]. *)
Definition getClient (c : Context) : dockerClient.Client + error :=
  match Client c with
  | Some cl => inl cl
  | None =>
      let endpoint := os_Getenv environ "DOCKER_HOST" in
      let endpoint :=
        if String.eqb endpoint "" then "unix:///var/run/docker.sock"
        else endpoint in
      dockerClient_NewClient endpoint
  end.

(** [lookupNamedContainer].  In the restart branch the error of the
    second [getClient] is dropped, and the re-inspected container is
    read without a [nil] test. *)
Definition lookupNamedContainer (c : Context)
  : M W (Context * option error) :=
  match getClient c with
  | inr err => ret (c, Some err)
  | inl client =>
      '(container, err) <- InspectContainer client (Name c) ;;
      if isNoSuchContainer err then ret (c, None)
      else
        match err, container with
        | Some _, _ | None, None => ret (c, err)
        | None, Some container =>
            if dockerClient.Running (dockerClient.State_ container) then
              ret (set_Pid (dockerClient.Pid (dockerClient.State_ container))
                           (set_Id (dockerClient.ID container) c), None)
            else if Rm c then
              err <- RemoveContainer client
                       {| dockerClient.RmID := dockerClient.ID container;
                          dockerClient.Force := true |} ;;
              ret (c, err)
            else
              match getClient c with
              | inr _ => panic
              | inl client =>
                  err <- StartContainer client (dockerClient.ID container)
                           (dockerClient.HostConfig_ container) ;;
                  match err with
                  | Some _ => ret (c, err)
                  | None =>
                      '(container, err) <- InspectContainer client (Name c) ;;
                      match err, container with
                      | Some _, _ => ret (c, err)
                      | None, None => panic
                      | None, Some container =>
                          ret (set_Pid
                                 (dockerClient.Pid
                                    (dockerClient.State_ container))
                                 (set_Id (dockerClient.ID container) c),
                               None)
                      end
                  end
              end
        end
  end.

(** [getContainerPid]. *)
Definition getContainerPid (c : Context) : M W (Z * option error) :=
  match getClient c with
  | inr err => ret (0%Z, Some err)
  | inl client =>
      '(container, err) <- InspectContainer client (Id c) ;;
      match err, container with
      | Some _, _ => ret (0%Z, err)
      | None, None => ret (0%Z, Some (errFailedToFind (Id c)))
      | None, Some container =>
          let pid := dockerClient.Pid (dockerClient.State_ container) in
          if (pid <=? 0)%Z then ret (0%Z, Some (errPidIs pid (Id c)))
          else ret (pid, None)
      end
  end.

(** [launchContainer].  When [Wait] succeeded but the process state is
    not a success, the source returns [err], which is [nil] there. *)
Definition launchContainer (c : Context) : M W (Context * option error) :=
  let args := "run" :: Args c in
  let c := set_Cmd (Some ("docker", args)) c in
  r <- Command "docker" args ;;
  match StderrPipe r with
  | Some err => ret (c, Some err)
  | None =>
  match StdoutPipe r with
  | Some err => ret (c, Some err)
  | None =>
  match Start r with
  | Some err => ret (c, Some err)
  | None =>
  match ReadAll r with
  | (_, Some err) => ret (c, Some err)
  | (bytes, None) =>
      let c := set_Id (strings_TrimSpace bytes) c in
      match Wait r with
      | Some err => ret (c, Some err)
      | None =>
          if negb (Success r) then ret (c, None)
          else
            '(pid, err) <- getContainerPid c ;;
            ret (set_Pid pid c, err)
      end
  end end end end.

(** [runContainer]. *)
Definition runContainer (c : Context) : M W (Context * option error) :=
  '(c, err) <- (if negb (String.eqb (Name c) "")
                then lookupNamedContainer c else ret (c, None)) ;;
  match err with
  | Some _ => ret (c, err)
  | None =>
      '(c, err) <- (if String.eqb (Id c) ""
                    then launchContainer c else ret (c, None)) ;;
      match err with
      | Some _ => ret (c, err)
      | None =>
          if (Pid c =? 0)%Z then ret (c, Some errPidIsZero)
          else ret (c, None)
      end
  end.

(** [pidDied]. *)
Definition pidDied (pid : Z) : M W bool :=
  err <- Stat ("/proc/" ++ strconv_Itoa pid) ;;
  ret (os_IsNotExist err).

(** [notify]; the deferred [conn.Close()] runs on every path after a
    successful [Dial]. *)
Definition notify (c : Context) : M W (option error) :=
  died <- pidDied (Pid c) ;;
  if died then ret (Some errEarlyExit)
  else if String.eqb (NotifySocket c) "" then ret None
  else
    err <- Dial "unixgram" (NotifySocket c) ;;
    match err with
    | Some _ => ret err
    | None =>
        result <-
          (err <- connWrite ("MAINPID=" ++ strconv_Itoa (Pid c)) ;;
           match err with
           | Some _ => ret err
           | None =>
               died <- pidDied (Pid c) ;;
               if died then
                 self <- Getpid ;;
                 _ <- connWrite ("MAINPID=" ++ strconv_Itoa self) ;;
                 ret (Some errEarlyExit)
               else if negb (Notify c) then
                 err <- connWrite "READY=1" ;;
                 match err with
                 | Some _ => ret err
                 | None => ret None
                 end
               else ret None
           end) ;;
        _ <- connClose ;;
        ret result
    end.

(** [pidFile]; the mode [0644] is 420. *)
Definition pidFile (c : Context) : M W (option error) :=
  if String.eqb (PidFile c) "" || (Pid c <=? 0)%Z then ret None
  else
    err <- WriteFile (PidFile c) (strconv_Itoa (Pid c)) 420 ;;
    match err with
    | Some _ => ret err
    | None => ret None
    end.

(** [rmContainer]. *)
Definition rmContainer (c : Context) : M W (option error) :=
  if negb (Rm c) then ret None
  else
    match getClient c with
    | inr err => ret (Some err)
    | inl client =>
        RemoveContainer client
          {| dockerClient.RmID := Id c; dockerClient.Force := true |}
    end.

End Program.

(** ** Instances used to run the program on concrete inputs *)

(** A flag grammar that knows the long and short spellings of the four
    flags, enough for the examples below. *)
Fixpoint sampleParse (args : list string) (f : OwnFlags) : OwnFlags + error :=
  match args with
  | [] => inl f
  | a :: rest =>
      if String.eqb a "--env" || String.eqb a "-e" then
        sampleParse rest
          {| flag_PidFile := flag_PidFile f; flag_Logs := flag_Logs f;
             flag_Notify := flag_Notify f; flag_Env := true |}
      else if String.eqb a "--notify" || String.eqb a "-n" then
        sampleParse rest
          {| flag_PidFile := flag_PidFile f; flag_Logs := flag_Logs f;
             flag_Notify := true; flag_Env := flag_Env f |}
      else if String.eqb a "--logs" || String.eqb a "-l" then
        sampleParse rest
          {| flag_PidFile := flag_PidFile f; flag_Logs := true;
             flag_Notify := flag_Notify f; flag_Env := flag_Env f |}
      else if String.eqb a "--pid-file" || String.eqb a "-p" then
        match rest with
        | v :: rest' =>
            sampleParse rest'
              {| flag_PidFile := v; flag_Logs := flag_Logs f;
                 flag_Notify := flag_Notify f; flag_Env := flag_Env f |}
        | [] => inr (OtherError "flag needs an argument")
        end
      else inr (OtherError "unknown flag")
  end.

Definition sampleGrammar : FlagGrammar :=
  {| flags_Parse := fun args =>
       sampleParse args
         {| flag_PidFile := ""; flag_Logs := true;
            flag_Notify := false; flag_Env := false |} |}.

(** A scripted platform: every kind of call answers with the next entry of
    its list, and with a default when the list is used up. *)
Record Script : Type := mkScript
  { sc_inspect : list (option dockerClient.Container * option error);
    sc_remove : list (option error);
    sc_start : list (option error);
    sc_command : list CmdRun;
    sc_stat : list (option error);
    sc_dial : list (option error);
    sc_write : list (option error);
    sc_writeFile : list (option error) }.

Definition next {A} (dflt : A) (l : list A) : A * list A :=
  match l with
  | [] => (dflt, [])
  | a :: l' => (a, l')
  end.

Definition isAsciiSpace (ch : ascii) : bool :=
  let n := nat_of_ascii ch in
  Nat.eqb n 32 || (Nat.leb 9 n && Nat.leb n 13).

Fixpoint trimLeft (s : string) : string :=
  match s with
  | String ch s' => if isAsciiSpace ch then trimLeft s' else s
  | EmptyString => EmptyString
  end.

Fixpoint trimRight (s : string) : string :=
  match s with
  | EmptyString => EmptyString
  | String ch s' =>
      match trimRight s' with
      | EmptyString => if isAsciiSpace ch then EmptyString
                       else String ch EmptyString
      | t => String ch t
      end
  end.

Definition failedCmd : CmdRun :=
  {| StderrPipe := None; StdoutPipe := None;
     Start := Some (OtherError "exec: docker: not found");
     ReadAll := ("", None); Wait := None; Success := false |}.

Definition scriptedPlatform (self : Z) : Platform Script :=
  {| strings_TrimSpace := fun s => trimRight (trimLeft s);
     dockerClient_NewClient := fun ep => inl {| dockerClient.endpoint := ep |};
     client_InspectContainer := fun _ name w =>
       let '(r, l) := next (None, Some (NoSuchContainer name)) (sc_inspect w) in
       (r, mkScript l (sc_remove w) (sc_start w) (sc_command w) (sc_stat w)
                    (sc_dial w) (sc_write w) (sc_writeFile w));
     client_RemoveContainer := fun _ _ w =>
       let '(r, l) := next None (sc_remove w) in
       (r, mkScript (sc_inspect w) l (sc_start w) (sc_command w) (sc_stat w)
                    (sc_dial w) (sc_write w) (sc_writeFile w));
     client_StartContainer := fun _ _ _ w =>
       let '(r, l) := next None (sc_start w) in
       (r, mkScript (sc_inspect w) (sc_remove w) l (sc_command w) (sc_stat w)
                    (sc_dial w) (sc_write w) (sc_writeFile w));
     exec_Command := fun _ _ w =>
       let '(r, l) := next failedCmd (sc_command w) in
       (r, mkScript (sc_inspect w) (sc_remove w) (sc_start w) l (sc_stat w)
                    (sc_dial w) (sc_write w) (sc_writeFile w));
     os_Stat := fun _ w =>
       let '(r, l) := next None (sc_stat w) in
       (r, mkScript (sc_inspect w) (sc_remove w) (sc_start w) (sc_command w) l
                    (sc_dial w) (sc_write w) (sc_writeFile w));
     os_Getpid := self;
     net_Dial := fun _ _ w =>
       let '(r, l) := next None (sc_dial w) in
       (r, mkScript (sc_inspect w) (sc_remove w) (sc_start w) (sc_command w)
                    (sc_stat w) l (sc_write w) (sc_writeFile w));
     conn_Write := fun _ w =>
       let '(r, l) := next None (sc_write w) in
       (r, mkScript (sc_inspect w) (sc_remove w) (sc_start w) (sc_command w)
                    (sc_stat w) (sc_dial w) l (sc_writeFile w));
     conn_Close := fun w => w;
     ioutil_WriteFile := fun _ _ _ w =>
       let '(r, l) := next None (sc_writeFile w) in
       (r, mkScript (sc_inspect w) (sc_remove w) (sc_start w) (sc_command w)
                    (sc_stat w) (sc_dial w) (sc_write w) l) |}.

(** A quiet world: no container known, every call succeeds. *)
Definition quiet : Script := mkScript [] [] [] [] [] [] [] [].

(** A container as [InspectContainer] reports it. *)
Definition container (id : string) (running : bool) (pid : Z)
  : dockerClient.Container :=
  {| dockerClient.ID := id;
     dockerClient.State_ :=
       {| dockerClient.Running := running; dockerClient.Pid := pid |};
     dockerClient.HostConfig_ := dockerClient.mkHostConfig "" |}.

(** A context as [parseContext] leaves it for [run --name <name> <image>]. *)
Definition namedContext (name : string) : Context :=
  mkContext ["-d"; "--name"; name; "img"] true false name false false ""
            "" None 0%Z "" None.

(** A context after [runContainer], with a notify socket and a pid file
    asked for. *)
Definition notifyingContext (pid : Z) : Context :=
  mkContext ["-d"; "img"] true false "" false false "abc"
            "/run/systemd/notify" None pid "/run/web.pid" None.

(** The process is gone at the first look into [/proc]. *)
Definition diesAtOnce : Script :=
  mkScript [] [] [] [] [Some (ErrNotExist "/proc/5")] [] [] [].

(** The process is gone at the second look, and the second datagram
    cannot be sent. *)
Definition diesAfterMainPid : Script :=
  mkScript [] [] [] [] [None; Some (ErrNotExist "/proc/5")] []
           [None; Some (OtherError "write: connection refused")] [].

(** A [docker run] that prints [out] and exits with status 0. *)
Definition launchedCmd (out : string) : CmdRun :=
  {| StderrPipe := None; StdoutPipe := None; Start := None;
     ReadAll := (out, None); Wait := None; Success := true |}.

(** No container is called [web]; [docker run] creates [abc], whose main
    process has pid 12. *)
Definition firstInvocation : Script :=
  mkScript [(None, Some (NoSuchContainer "web"));
            (Some (container "abc" true 12), None)]
           [] [] [launchedCmd ("abc" ++ String "010" "")] [] [] [] [].

(** The container [web] is [abc], running with pid 12. *)
Definition secondInvocation : Script :=
  mkScript [(Some (container "abc" true 12), None)] [] [] [] [] [] [] [].

(** The daemon reports [web] as running with pid -1. *)
Definition negativePidReport : Script :=
  mkScript [(Some (container "abc" true (-1)), None)] [] [] [] [] [] [] [].

(** ** Notions used in the statements *)

(** Whether the character occurs in the string. *)
Fixpoint hasChar (ch : ascii) (s : string) : bool :=
  match s with
  | EmptyString => false
  | String c s' => Ascii.eqb c ch || hasChar ch s'
  end.

(** An entry starts with [key=] exactly when its key is [key]. *)
Definition keyIs (key entry : string) : bool :=
  match envKey entry with
  | Some k => String.eqb k key
  | None => false
  end.

(** The tokens the scan keeps. *)
Definition notRm (arg : string) : bool := negb (isRm arg).

(** How many detach tokens a vector holds. *)
Definition detachCount (args : list string) : nat :=
  length (filter isDetach args).

(** The flags that expose the notify socket to the container. *)
Definition notifyArgs (c : Context) : list string :=
  if Notify c && negb (String.eqb (NotifySocket c) "") then
    ["-e"; ("NOTIFY_SOCKET=" ++ NotifySocket c)%string;
     "-v"; (NotifySocket c ++ ":" ++ NotifySocket c)%string]
  else [].

(** The entries that are handed down: all but those with key [HOME] or
    [PATH]. *)
Definition inherited (environ : list string) : list string :=
  filter (fun e => negb (keyIs "HOME" e || keyIs "PATH" e)) environ.

(** One [-e entry] pair per entry. *)
Definition envFlags (entries : list string) : list string :=
  flat_map (fun e => ["-e"; e]) entries.

(** Everything [setupEnvironment] puts in front of the arguments. *)
Definition injected (environ : list string) (c : Context) : list string :=
  notifyArgs c ++ (if Env c then envFlags (inherited environ) else []).

(** The context that [parseContext] builds before [setupEnvironment]. *)
Definition scannedContext (environ : list string) (f : OwnFlags)
           (runArgs : list string) : Context :=
  let s := scanRunArgs runArgs in
  mkContext (scan_newArgs s) (flag_Logs f) (flag_Notify f)
            (scan_name s) (flag_Env f) (scan_Rm s) ""
            (os_Getenv environ "NOTIFY_SOCKET") None 0%Z
            (flag_PidFile f) None.

(** Unfolds the plumbing of a run. *)
Ltac run_program :=
  unfold bind, call, ret, panic; cbn [value world events app fst snd].

(** The outcomes of the liveness checks of a run, in order: [true] when
    the process was found dead. *)
Definition livenessChecks (evs : list Event) : list bool :=
  flat_map (fun ev => match ev with
                      | EvStat _ err => [os_IsNotExist err]
                      | _ => []
                      end) evs.

(** The datagrams a run wrote to the notify socket, in order. *)
Definition datagrams (evs : list Event) : list string :=
  flat_map (fun ev => match ev with
                      | EvConnWrite b _ => [b]
                      | _ => []
                      end) evs.

(** Every way [notify] can go: the value it returns and the calls it
    makes. *)
Inductive NotifyPath {W : Type} {P : Platform W} (c : Context)
  : Run W (option error) -> Prop :=
| DeadAtFirst e w1 :
    os_IsNotExist e = true ->
    NotifyPath c
      (mkRun (Returned (Some errEarlyExit)) w1
             [EvStat ("/proc/" ++ strconv_Itoa (Pid c)) e])
| NoSocket e w1 :
    os_IsNotExist e = false -> NotifySocket c = "" ->
    NotifyPath c
      (mkRun (Returned None) w1
             [EvStat ("/proc/" ++ strconv_Itoa (Pid c)) e])
| DialFails e w1 err :
    os_IsNotExist e = false -> NotifySocket c <> "" ->
    NotifyPath c
      (mkRun (Returned (Some err)) w1
             [EvStat ("/proc/" ++ strconv_Itoa (Pid c)) e;
              EvDial "unixgram" (NotifySocket c) (Some err)])
| MainPidFails e w1 err :
    os_IsNotExist e = false -> NotifySocket c <> "" ->
    NotifyPath c
      (mkRun (Returned (Some err)) w1
             [EvStat ("/proc/" ++ strconv_Itoa (Pid c)) e;
              EvDial "unixgram" (NotifySocket c) None;
              EvConnWrite ("MAINPID=" ++ strconv_Itoa (Pid c)) (Some err);
              EvConnClose])
| DeadAtSecond e w1 e2 err2 :
    os_IsNotExist e = false -> NotifySocket c <> "" ->
    os_IsNotExist e2 = true ->
    NotifyPath c
      (mkRun (Returned (Some errEarlyExit)) w1
             [EvStat ("/proc/" ++ strconv_Itoa (Pid c)) e;
              EvDial "unixgram" (NotifySocket c) None;
              EvConnWrite ("MAINPID=" ++ strconv_Itoa (Pid c)) None;
              EvStat ("/proc/" ++ strconv_Itoa (Pid c)) e2;
              EvConnWrite ("MAINPID=" ++ strconv_Itoa os_Getpid) err2;
              EvConnClose])
| ReadyFails e w1 e2 err :
    os_IsNotExist e = false -> NotifySocket c <> "" ->
    os_IsNotExist e2 = false -> Notify c = false ->
    NotifyPath c
      (mkRun (Returned (Some err)) w1
             [EvStat ("/proc/" ++ strconv_Itoa (Pid c)) e;
              EvDial "unixgram" (NotifySocket c) None;
              EvConnWrite ("MAINPID=" ++ strconv_Itoa (Pid c)) None;
              EvStat ("/proc/" ++ strconv_Itoa (Pid c)) e2;
              EvConnWrite "READY=1" (Some err);
              EvConnClose])
| ReadySent e w1 e2 :
    os_IsNotExist e = false -> NotifySocket c <> "" ->
    os_IsNotExist e2 = false -> Notify c = false ->
    NotifyPath c
      (mkRun (Returned None) w1
             [EvStat ("/proc/" ++ strconv_Itoa (Pid c)) e;
              EvDial "unixgram" (NotifySocket c) None;
              EvConnWrite ("MAINPID=" ++ strconv_Itoa (Pid c)) None;
              EvStat ("/proc/" ++ strconv_Itoa (Pid c)) e2;
              EvConnWrite "READY=1" None;
              EvConnClose])
| ReadyLeftToContainer e w1 e2 :
    os_IsNotExist e = false -> NotifySocket c <> "" ->
    os_IsNotExist e2 = false -> Notify c = true ->
    NotifyPath c
      (mkRun (Returned None) w1
             [EvStat ("/proc/" ++ strconv_Itoa (Pid c)) e;
              EvDial "unixgram" (NotifySocket c) None;
              EvConnWrite ("MAINPID=" ++ strconv_Itoa (Pid c)) None;
              EvStat ("/proc/" ++ strconv_Itoa (Pid c)) e2;
              EvConnClose]).

(** ** Supervision and the main sequence *)

(** [keepAlive] also calls [WaitContainer], which blocks until the
    container exits and hands back its exit code. *)
Class Supervisor (W : Type) {P : Platform W} : Type :=
  { client_WaitContainer :
      dockerClient.Client -> string -> W -> (Z * option error) * W }.

(** The calls of the whole program: those recorded so far and the waits. *)
Inductive LifeEvent : Type :=
| Call (ev : Event)
| EvWaitContainer (id : string) (code : Z) (err : option error).

(** The polling loop of [keepAlive].  [for true] has no bound of its own:
    the loop is given [fuel] rounds and yields [None] when they are used
    up.  The result of [WaitContainer] is dropped, and the inspected
    container is read without a [nil] test. *)
Fixpoint keepAliveLoop {W : Type} {P : Platform W} {Sup : Supervisor W}
         (fuel : nat) (client : dockerClient.Client) (c : Context) (w : W)
  : option (Outcome (option error) * W * list LifeEvent) :=
  match fuel with
  | O => None
  | S fuel' =>
      let '((container, err), w1) := client_InspectContainer client (Id c) w in
      let ev := Call (EvInspectContainer (Id c) container err) in
      match err, container with
      | Some _, _ => Some (Returned err, w1, [ev])
      | None, None => Some (Panicked, w1, [ev])
      | None, Some container =>
          if dockerClient.Running (dockerClient.State_ container) then
            let '((code, werr), w2) := client_WaitContainer client (Id c) w1 in
            match keepAliveLoop fuel' client c w2 with
            | Some (r, w3, evs) =>
                Some (r, w3, ev :: EvWaitContainer (Id c) code werr :: evs)
            | None => None
            end
          else Some (Returned None, w1, [ev])
      end
  end.

(** [keepAlive]. *)
Definition keepAlive {W : Type} {P : Platform W} {Sup : Supervisor W}
           (environ : list string) (fuel : nat) (c : Context) (w : W)
  : option (Outcome (option error) * W * list LifeEvent) :=
  if Logs c || Rm c then
    match getClient environ c with
    | inr err => Some (Returned (Some err), w, [])
    | inl client => keepAliveLoop fuel client c w
    end
  else Some (Returned None, w, []).

(** What [mainWithArgs] hands back, the world it leaves and the calls it
    made. *)
Record MainRun (W : Type) : Type := mkMainRun
  { main_value : Outcome (option Context * option error);
    main_world : W;
    main_events : list LifeEvent }.
Arguments mkMainRun {W} main_value main_world main_events.
Arguments main_value {W} m.
Arguments main_world {W} m.
Arguments main_events {W} m.

(** [mainWithArgs], as far as its own thread goes: [go pipeLogs(c)]
    starts the log relay beside it and never reports back, and is not
    part of this sequence.  The context is the pointer [parseContext]
    returned, [nil] when parsing failed. *)
Definition mainWithArgs `{FlagGrammar} {W : Type} {P : Platform W}
           {Sup : Supervisor W}
           (environ : list string) (fuel : nat) (args : list string) (w : W)
  : option (MainRun W) :=
  match parseContext environ args with
  | inr err => Some (mkMainRun (Returned (None, Some err)) w [])
  | inl c =>
      let r1 := runContainer environ c w in
      match value r1 with
      | Panicked => Some (mkMainRun Panicked (world r1) (map Call (events r1)))
      | Returned (c, Some err) =>
          Some (mkMainRun (Returned (Some c, Some err)) (world r1)
                          (map Call (events r1)))
      | Returned (c, None) =>
          let r2 := notify c (world r1) in
          match value r2 with
          | Panicked =>
              Some (mkMainRun Panicked (world r2)
                              (map Call (events r1 ++ events r2)))
          | Returned (Some err) =>
              Some (mkMainRun (Returned (Some c, Some err)) (world r2)
                              (map Call (events r1 ++ events r2)))
          | Returned None =>
              let r3 := pidFile c (world r2) in
              match value r3 with
              | Panicked =>
                  Some (mkMainRun Panicked (world r3)
                          (map Call (events r1 ++ events r2 ++ events r3)))
              | Returned (Some err) =>
                  Some (mkMainRun (Returned (Some c, Some err)) (world r3)
                          (map Call (events r1 ++ events r2 ++ events r3)))
              | Returned None =>
                  let before :=
                    map Call (events r1 ++ events r2 ++ events r3) in
                  match keepAlive environ fuel c (world r3) with
                  | None => None
                  | Some (Panicked, w4, evs) =>
                      Some (mkMainRun Panicked w4 (before ++ evs))
                  | Some (Returned (Some err), w4, evs) =>
                      Some (mkMainRun (Returned (Some c, Some err)) w4
                                      (before ++ evs))
                  | Some (Returned None, w4, evs) =>
                      let r5 := rmContainer environ c w4 in
                      Some (mkMainRun
                              match value r5 with
                              | Panicked => Panicked
                              | Returned (Some err) =>
                                  Returned (Some c, Some err)
                              | Returned None => Returned (Some c, None)
                              end
                              (world r5)
                              (before ++ evs ++ map Call (events r5)))
                  end
              end
          end
      end
  end.

(** On the scripted platform a wait returns at once with exit code 0. *)
Definition scriptedSupervisor (self : Z)
  : @Supervisor Script (scriptedPlatform self) :=
  {| client_WaitContainer := fun _ _ w => ((0%Z, None), w) |}.

(** The fields of the context that only [parseContext] sets. *)
Definition sameSettings (c c' : Context) : Prop :=
  Args c' = Args c /\ Logs c' = Logs c /\ Notify c' = Notify c /\
  Name c' = Name c /\ Env c' = Env c /\ Rm c' = Rm c /\
  NotifySocket c' = NotifySocket c /\ PidFile c' = PidFile c /\
  Client c' = Client c.

(** Every way [lookupNamedContainer] can go from the world [w]: what it
    returns, the world it leaves and the calls it makes. *)
Inductive LookupPath {W : Type} {P : Platform W} (environ : list string)
          (c : Context) (w : W) : Run W (Context * option error) -> Prop :=
| LookupNoClient err :
    getClient environ c = inr err ->
    LookupPath environ c w (mkRun (Returned (c, Some err)) w [])
| LookupAbsent client cont id w1 :
    getClient environ c = inl client ->
    client_InspectContainer client (Name c) w
    = ((cont, Some (NoSuchContainer id)), w1) ->
    LookupPath environ c w
      (mkRun (Returned (c, None)) w1
             [EvInspectContainer (Name c) cont (Some (NoSuchContainer id))])
| LookupFailed client cont err w1 :
    getClient environ c = inl client ->
    client_InspectContainer client (Name c) w = ((cont, Some err), w1) ->
    isNoSuchContainer (Some err) = false ->
    LookupPath environ c w
      (mkRun (Returned (c, Some err)) w1
             [EvInspectContainer (Name c) cont (Some err)])
| LookupNil client w1 :
    getClient environ c = inl client ->
    client_InspectContainer client (Name c) w = ((None, None), w1) ->
    LookupPath environ c w
      (mkRun (Returned (c, None)) w1
             [EvInspectContainer (Name c) None None])
| LookupRunning client cont w1 :
    getClient environ c = inl client ->
    client_InspectContainer client (Name c) w = ((Some cont, None), w1) ->
    dockerClient.Running (dockerClient.State_ cont) = true ->
    LookupPath environ c w
      (mkRun (Returned
                (set_Pid (dockerClient.Pid (dockerClient.State_ cont))
                         (set_Id (dockerClient.ID cont) c), None))
             w1 [EvInspectContainer (Name c) (Some cont) None])
| LookupRemoved client cont w1 err w2 :
    getClient environ c = inl client ->
    client_InspectContainer client (Name c) w = ((Some cont, None), w1) ->
    dockerClient.Running (dockerClient.State_ cont) = false ->
    Rm c = true ->
    client_RemoveContainer client
      {| dockerClient.RmID := dockerClient.ID cont;
         dockerClient.Force := true |} w1 = (err, w2) ->
    LookupPath environ c w
      (mkRun (Returned (c, err)) w2
             [EvInspectContainer (Name c) (Some cont) None;
              EvRemoveContainer
                {| dockerClient.RmID := dockerClient.ID cont;
                   dockerClient.Force := true |} err])
| LookupStartFailed client cont w1 err w2 :
    getClient environ c = inl client ->
    client_InspectContainer client (Name c) w = ((Some cont, None), w1) ->
    dockerClient.Running (dockerClient.State_ cont) = false ->
    Rm c = false ->
    client_StartContainer client (dockerClient.ID cont)
      (dockerClient.HostConfig_ cont) w1 = (Some err, w2) ->
    LookupPath environ c w
      (mkRun (Returned (c, Some err)) w2
             [EvInspectContainer (Name c) (Some cont) None;
              EvStartContainer (dockerClient.ID cont)
                (dockerClient.HostConfig_ cont) (Some err)])
| LookupReinspectFailed client cont w1 w2 cont2 err w3 :
    getClient environ c = inl client ->
    client_InspectContainer client (Name c) w = ((Some cont, None), w1) ->
    dockerClient.Running (dockerClient.State_ cont) = false ->
    Rm c = false ->
    client_StartContainer client (dockerClient.ID cont)
      (dockerClient.HostConfig_ cont) w1 = (None, w2) ->
    client_InspectContainer client (Name c) w2 = ((cont2, Some err), w3) ->
    LookupPath environ c w
      (mkRun (Returned (c, Some err)) w3
             [EvInspectContainer (Name c) (Some cont) None;
              EvStartContainer (dockerClient.ID cont)
                (dockerClient.HostConfig_ cont) None;
              EvInspectContainer (Name c) cont2 (Some err)])
| LookupReinspectNil client cont w1 w2 w3 :
    getClient environ c = inl client ->
    client_InspectContainer client (Name c) w = ((Some cont, None), w1) ->
    dockerClient.Running (dockerClient.State_ cont) = false ->
    Rm c = false ->
    client_StartContainer client (dockerClient.ID cont)
      (dockerClient.HostConfig_ cont) w1 = (None, w2) ->
    client_InspectContainer client (Name c) w2 = ((None, None), w3) ->
    LookupPath environ c w
      (mkRun Panicked w3
             [EvInspectContainer (Name c) (Some cont) None;
              EvStartContainer (dockerClient.ID cont)
                (dockerClient.HostConfig_ cont) None;
              EvInspectContainer (Name c) None None])
| LookupRestarted client cont w1 w2 cont2 w3 :
    getClient environ c = inl client ->
    client_InspectContainer client (Name c) w = ((Some cont, None), w1) ->
    dockerClient.Running (dockerClient.State_ cont) = false ->
    Rm c = false ->
    client_StartContainer client (dockerClient.ID cont)
      (dockerClient.HostConfig_ cont) w1 = (None, w2) ->
    client_InspectContainer client (Name c) w2 = ((Some cont2, None), w3) ->
    LookupPath environ c w
      (mkRun (Returned
                (set_Pid (dockerClient.Pid (dockerClient.State_ cont2))
                         (set_Id (dockerClient.ID cont2) c), None))
             w3
             [EvInspectContainer (Name c) (Some cont) None;
              EvStartContainer (dockerClient.ID cont)
                (dockerClient.HostConfig_ cont) None;
              EvInspectContainer (Name c) (Some cont2) None]).

(** Every way [launchContainer] can go from the world [w], [r] being what
    the [docker run] command does. *)
Inductive LaunchPath {W : Type} {P : Platform W} (environ : list string)
          (c : Context) (w : W) : Run W (Context * option error) -> Prop :=
| LaunchCommandFailed r w1 err :
    exec_Command "docker" ("run" :: Args c) w = (r, w1) ->
    StderrPipe r = Some err \/
    (StderrPipe r = None /\ StdoutPipe r = Some err) \/
    (StderrPipe r = None /\ StdoutPipe r = None /\ Start r = Some err) \/
    (StderrPipe r = None /\ StdoutPipe r = None /\ Start r = None /\
     snd (ReadAll r) = Some err) ->
    LaunchPath environ c w
      (mkRun (Returned (set_Cmd (Some ("docker", "run" :: Args c)) c,
                        Some err))
             w1 [EvCommand "docker" ("run" :: Args c)])
| LaunchExited r w1 result :
    exec_Command "docker" ("run" :: Args c) w = (r, w1) ->
    StderrPipe r = None -> StdoutPipe r = None -> Start r = None ->
    snd (ReadAll r) = None ->
    (exists err, Wait r = Some err /\ result = Some err) \/
    (Wait r = None /\ Success r = false /\ result = None) ->
    LaunchPath environ c w
      (mkRun (Returned
                (set_Id (strings_TrimSpace (fst (ReadAll r)))
                        (set_Cmd (Some ("docker", "run" :: Args c)) c),
                 result))
             w1 [EvCommand "docker" ("run" :: Args c)])
| LaunchResolved r w1 c1 pid err w2 evs :
    exec_Command "docker" ("run" :: Args c) w = (r, w1) ->
    StderrPipe r = None -> StdoutPipe r = None -> Start r = None ->
    snd (ReadAll r) = None -> Wait r = None -> Success r = true ->
    c1 = set_Id (strings_TrimSpace (fst (ReadAll r)))
                (set_Cmd (Some ("docker", "run" :: Args c)) c) ->
    getContainerPid environ c1 w1 = mkRun (Returned (pid, err)) w2 evs ->
    LaunchPath environ c w
      (mkRun (Returned (set_Pid pid c1, err)) w2
             (EvCommand "docker" ("run" :: Args c) :: evs)).

(** The shape of the calls of [keepAlive]: polls that find the container
    running, each followed by a wait, up to a last poll that ends the
    loop with the value [v]. *)
Inductive Polling (id : string) (v : Outcome (option error))
  : list LifeEvent -> Prop :=
| PollStopped cont :
    dockerClient.Running (dockerClient.State_ cont) = false ->
    v = Returned None ->
    Polling id v [Call (EvInspectContainer id (Some cont) None)]
| PollFailed cont err :
    v = Returned (Some err) ->
    Polling id v [Call (EvInspectContainer id cont (Some err))]
| PollNil :
    v = Panicked ->
    Polling id v [Call (EvInspectContainer id None None)]
| PollWait cont code werr evs :
    dockerClient.Running (dockerClient.State_ cont) = true ->
    Polling id v evs ->
    Polling id v (Call (EvInspectContainer id (Some cont) None)
                    :: EvWaitContainer id code werr :: evs).

(** The container [abc] is found running once, then stopped. *)
Definition stopsAfterOneWait : Script :=
  mkScript [(Some (container "abc" true 12), None);
            (Some (container "abc" false 0), None)] [] [] [] [] [] [] [].

(** [docker run] creates [abc] with pid 12, which is then found running
    once and stopped afterwards. *)
Definition wholeRun : Script :=
  mkScript [(Some (container "abc" true 12), None);
            (Some (container "abc" true 12), None);
            (Some (container "abc" false 0), None)]
           [] [] [launchedCmd ("abc" ++ String "010" "")] [] [] [] [].







(** The container [web] is [abc], found stopped; once started it runs
    with pid 34. *)
Definition stoppedThenRestarted : Script :=
  mkScript [(Some (container "abc" false 0), None);
            (Some (container "abc" true 34), None)] [] [] [] [] [] [] [].

(** The container [web] is [abc], found stopped; [docker run] then
    creates [def] with pid 56. *)
Definition stoppedThenReplaced : Script :=
  mkScript [(Some (container "abc" false 0), None);
            (Some (container "def" true 56), None)]
           [] [] [launchedCmd ("def" ++ String "010" "")] [] [] [] [].

(** A context as [parseContext] leaves it for
    [run --rm --name <name> <image>]. *)
Definition rmNamedContext (name : string) : Context :=
  mkContext ["-d"; "--name"; name; "img"] true false name false true ""
            "" None 0%Z "" None.

(** The arguments and the environment of the two whole runs below. *)
Definition wholeArgs : list string :=
  ["-p"; "/run/x.pid"; "run"; "--rm"; "busybox"].
Definition wholeEnviron : list string :=
  ["NOTIFY_SOCKET=/run/systemd/notify"].

(** What [mainWithArgs] gives on [wholeRun] and on [diesBeforeNotify],
    computed from its definition, and the contexts it hands back. *)
Definition wholeRunMain : MainRun Script :=
  Eval vm_compute in
    match @mainWithArgs sampleGrammar Script (scriptedPlatform 77)
                        (scriptedSupervisor 77) wholeEnviron 5 wholeArgs
                        wholeRun with
    | Some m => m
    | None => mkMainRun Panicked quiet []
    end.

Definition wholeRunContext : Context :=
  Eval vm_compute in
    match main_value wholeRunMain with
    | Returned (Some c, _) => c
    | _ => namedContext ""
    end.



(** Splits a membership in an explicit list of calls into its cases and
    drops those that cannot be. *)
Ltac in_events H :=
  cbn [In] in H;
  repeat (destruct H as [H|H]);
  try discriminate H; try contradiction.


(** ** Facts about the string functions *)

Lemma hasChar_app (ch : ascii) (s t : string) :
  hasChar ch (s ++ t) = hasChar ch s || hasChar ch t.
Proof.
  induction s as [|c s IH]; simpl; [reflexivity|].
  now rewrite IH, orb_assoc.
Qed.

Lemma string_app_assoc (a b c : string) :
  ((a ++ b) ++ c = a ++ b ++ c)%string.
Proof. induction a as [|ch a IH]; simpl; [reflexivity | now rewrite IH]. Qed.

Lemma HasPrefix_app (p v : string) : strings_HasPrefix (p ++ v) p = true.
Proof.
  induction p as [|c p IH]; simpl; [reflexivity|].
  now rewrite Ascii.eqb_refl, IH.
Qed.

Lemma HasPrefix_inv (p s : string) :
  strings_HasPrefix s p = true -> exists v, s = (p ++ v)%string.
Proof.
  revert s; induction p as [|c p IH]; intros s H.
  - now exists s.
  - destruct s as [|d s]; simpl in H; [discriminate|].
    apply andb_true_iff in H as [Hc H]. apply Ascii.eqb_eq in Hc as ->.
    destruct (IH _ H) as [v ->]. now exists v.
Qed.

Lemma Cut_eq_cons (c : ascii) (s : string) :
  strings_Cut (String c s) "=" =
  if Ascii.eqb "=" c then Some ("", s)
  else match strings_Cut s "=" with
       | Some (before, after) => Some (String c before, after)
       | None => None
       end.
Proof. simpl. now rewrite andb_true_r. Qed.

(** Cutting at [=]: the pieces put together give the string back, and the
    piece in front holds no [=]. *)
Lemma Cut_eq_sound (s a b : string) :
  strings_Cut s "=" = Some (a, b) ->
  s = (a ++ "=" ++ b)%string /\ hasChar "=" a = false.
Proof.
  revert a b; induction s as [|c s IH]; intros a b H.
  - discriminate.
  - rewrite Cut_eq_cons in H. destruct (Ascii.eqb_spec "=" c) as [<-|Hc].
    + inversion H; subst; now split.
    + destruct (strings_Cut s "=") as [[a' b']|] eqn:E; [|discriminate].
      inversion H; subst. destruct (IH _ _ eq_refl) as [-> Ha].
      split; [reflexivity|]. simpl. rewrite Ha, orb_false_r.
      apply Ascii.eqb_neq. congruence.
Qed.

Lemma Cut_eq_complete (a b : string) :
  hasChar "=" a = false ->
  strings_Cut (a ++ "=" ++ b) "=" = Some (a, b).
Proof.
  induction a as [|c a IH]; intros H.
  - reflexivity.
  - simpl in H. apply orb_false_iff in H as [Hc Ha].
    change (String c a ++ "=" ++ b)%string
      with (String c (a ++ "=" ++ b))%string.
    rewrite Cut_eq_cons, (IH Ha).
    rewrite Ascii.eqb_sym in Hc. now rewrite Hc.
Qed.

Lemma Contains_eq_hasChar (s : string) :
  strings_Contains s "=" = hasChar "=" s.
Proof.
  unfold strings_Contains.
  induction s as [|c s IH]; [reflexivity|].
  rewrite Cut_eq_cons. simpl hasChar. rewrite (Ascii.eqb_sym c).
  destruct (Ascii.eqb "=" c); [reflexivity|].
  simpl. rewrite <- IH. now destruct (strings_Cut s "=") as [[? ?]|].
Qed.

(** The index [1] that [parseContext] takes of the [SplitN] result exists
    whenever the token contains [=], and is what follows the first [=]. *)
Lemma SplitN2_second (s : string) :
  strings_Contains s "=" = true ->
  exists a b, strings_SplitN2 s "=" = [a; b]
              /\ s = (a ++ "=" ++ b)%string
              /\ nth 1 (strings_SplitN2 s "=") "" = b.
Proof.
  unfold strings_Contains, strings_SplitN2.
  destruct (strings_Cut s "=") as [[a b]|] eqn:E; [|discriminate].
  intros _. exists a, b. apply Cut_eq_sound in E as [-> _]. now repeat split.
Qed.

Lemma HasPrefix_keyIs (key entry : string) :
  hasChar "=" key = false ->
  strings_HasPrefix entry (key ++ "=") = keyIs key entry.
Proof.
  intros Hk. unfold keyIs, envKey.
  destruct (strings_HasPrefix entry (key ++ "=")) eqn:Hp.
  - apply HasPrefix_inv in Hp as [v ->].
    rewrite string_app_assoc, (Cut_eq_complete _ _ Hk).
    symmetry. apply String.eqb_refl.
  - destruct (strings_Cut entry "=") as [[k v]|] eqn:E; [|reflexivity].
    apply Cut_eq_sound in E as [-> _].
    destruct (String.eqb_spec k key) as [->|]; [|reflexivity].
    rewrite <- string_app_assoc, HasPrefix_app in Hp. discriminate.
Qed.

(** ** Facts about the argument scan *)

Lemma isRm_cases (a : string) : isRm a = true -> a = "-rm" \/ a = "--rm".
Proof.
  unfold isRm. intros H. apply orb_true_iff in H as [H|H];
    apply String.eqb_eq in H; auto.
Qed.

Lemma isDetach_cases (a : string) :
  isDetach a = true -> a = "-d" \/ a = "-detach" \/ a = "--detach".
Proof.
  unfold isDetach. intros H.
  apply orb_true_iff in H as [H|H]; [apply orb_true_iff in H as [H|H]|];
    apply String.eqb_eq in H; auto.
Qed.

Lemma isRm_not_detach (a : string) : isRm a = true -> isDetach a = false.
Proof. intros H. destruct (isRm_cases _ H) as [->| ->]; reflexivity. Qed.

Lemma isNameFlag_not_rm (a : string) : isNameFlag a = true -> isRm a = false.
Proof.
  intros H. destruct (isRm a) eqn:E; [|reflexivity].
  destruct (isRm_cases _ E) as [->| ->]; discriminate.
Qed.

Lemma isNameFlag_not_detach (a : string) :
  isNameFlag a = true -> isDetach a = false.
Proof.
  intros H. destruct (isDetach a) eqn:E; [|reflexivity].
  destruct (isDetach_cases _ E) as [->|[->| ->]]; discriminate.
Qed.

(** A token that contains [=] or [:] is none of the tokens the scan
    looks for. *)
Lemma hasChar_plain (ch : ascii) (a : string) :
  hasChar ch a = true -> ch = "="%char \/ ch = ":"%char ->
  isRm a = false /\ isDetach a = false.
Proof.
  intros H Hch. split.
  - destruct (isRm a) eqn:E; [|reflexivity].
    destruct (isRm_cases _ E) as [->| ->], Hch as [->| ->]; discriminate.
  - destruct (isDetach a) eqn:E; [|reflexivity].
    destruct (isDetach_cases _ E) as [->|[->| ->]], Hch as [->| ->];
      discriminate.
Qed.

Lemma isKeyValue_plain (e : string) :
  isKeyValue e = true -> isRm e = false /\ isDetach e = false.
Proof.
  unfold isKeyValue. rewrite Contains_eq_hasChar. intros H.
  apply (hasChar_plain "="); auto.
Qed.

Section ScanFacts.

Variables (arg : string) (rest : list string) (s : Scan).

Lemma scanStep_newArgs :
  scan_newArgs (scanStep arg rest s) =
  scan_newArgs s ++ (if isRm arg then [] else [arg]).
Proof.
  unfold scanStep.
  destruct (isRm arg); [simpl; now rewrite app_nil_r|].
  destruct (isDetach arg); [reflexivity|].
  destruct (isNameFlag arg); [|reflexivity].
  destruct (strings_Contains arg "="); [reflexivity|].
  now destruct rest.
Qed.

Lemma scanStep_Rm : scan_Rm (scanStep arg rest s) = scan_Rm s || isRm arg.
Proof.
  unfold scanStep.
  destruct (isRm arg); [simpl; now rewrite orb_true_r|].
  rewrite orb_false_r.
  destruct (isDetach arg); [reflexivity|].
  destruct (isNameFlag arg); [|reflexivity].
  destruct (strings_Contains arg "="); [reflexivity|].
  now destruct rest.
Qed.

Lemma scanStep_foundD :
  scan_foundD (scanStep arg rest s) = scan_foundD s || isDetach arg.
Proof.
  unfold scanStep.
  destruct (isRm arg) eqn:E.
  - rewrite (isRm_not_detach _ E). simpl. now rewrite orb_false_r.
  - destruct (isDetach arg); [simpl; now rewrite orb_true_r|].
    rewrite orb_false_r.
    destruct (isNameFlag arg); [|reflexivity].
    destruct (strings_Contains arg "="); [reflexivity|].
    now destruct rest.
Qed.

(** What the name turns into at one token. *)
Lemma scanStep_name :
  scan_name (scanStep arg rest s) =
  if isNameFlag arg then
    if strings_Contains arg "=" then nth 1 (strings_SplitN2 arg "=") ""
    else match rest with next :: _ => next | [] => scan_name s end
  else scan_name s.
Proof.
  unfold scanStep.
  destruct (isNameFlag arg) eqn:E.
  - rewrite (isNameFlag_not_rm _ E), (isNameFlag_not_detach _ E).
    destruct (strings_Contains arg "="); [reflexivity|].
    now destruct rest.
  - destruct (isRm arg); [reflexivity|]. now destruct (isDetach arg).
Qed.

End ScanFacts.

Lemma scanLoop_newArgs (l : list string) (s : Scan) :
  scan_newArgs (scanLoop l s) = scan_newArgs s ++ filter notRm l.
Proof.
  revert s; induction l as [|a l IH]; intros s; simpl.
  - now rewrite app_nil_r.
  - rewrite IH, scanStep_newArgs, <- app_assoc. unfold notRm.
    now destruct (isRm a).
Qed.

Lemma scanLoop_Rm (l : list string) (s : Scan) :
  scan_Rm (scanLoop l s) = scan_Rm s || existsb isRm l.
Proof.
  revert s; induction l as [|a l IH]; intros s; simpl.
  - now rewrite orb_false_r.
  - now rewrite IH, scanStep_Rm, orb_assoc.
Qed.

Lemma scanLoop_foundD (l : list string) (s : Scan) :
  scan_foundD (scanLoop l s) = scan_foundD s || existsb isDetach l.
Proof.
  revert s; induction l as [|a l IH]; intros s; simpl.
  - now rewrite orb_false_r.
  - now rewrite IH, scanStep_foundD, orb_assoc.
Qed.

(** Tokens that are no name flags leave the name alone. *)
Lemma scanLoop_name_unchanged (l : list string) (s : Scan) :
  existsb isNameFlag l = false -> scan_name (scanLoop l s) = scan_name s.
Proof.
  revert s; induction l as [|a l IH]; intros s H; simpl in *.
  - reflexivity.
  - apply orb_false_iff in H as [Ha Hl].
    now rewrite (IH _ Hl), scanStep_name, Ha.
Qed.

(** The whole scan, field by field. *)
Lemma scanRunArgs_newArgs (l : list string) :
  scan_newArgs (scanRunArgs l) =
  (if existsb isDetach l then [] else ["-d"]) ++ filter notRm l.
Proof.
  unfold scanRunArgs. rewrite scanLoop_foundD. simpl.
  destruct (existsb isDetach l); simpl; now rewrite scanLoop_newArgs.
Qed.

Lemma scanRunArgs_Rm (l : list string) :
  scan_Rm (scanRunArgs l) = existsb isRm l.
Proof.
  unfold scanRunArgs.
  destruct (scan_foundD _); simpl; now rewrite scanLoop_Rm.
Qed.

Lemma scanRunArgs_name (l : list string) :
  scan_name (scanRunArgs l) = scan_name (scanLoop l (mkScan false false "" [])).
Proof. unfold scanRunArgs. now destruct (scan_foundD _). Qed.

Lemma detachCount_app (l1 l2 : list string) :
  detachCount (l1 ++ l2) = detachCount l1 + detachCount l2.
Proof. unfold detachCount. now rewrite filter_app, length_app. Qed.

Lemma detachCount_notRm (l : list string) :
  detachCount (filter notRm l) = detachCount l.
Proof.
  unfold detachCount, notRm. induction l as [|a l IH]; [reflexivity|].
  simpl. destruct (isRm a) eqn:E; simpl.
  - now rewrite (isRm_not_detach _ E).
  - destruct (isDetach a); simpl; now rewrite IH.
Qed.

Lemma existsb_isDetach_count (l : list string) :
  existsb isDetach l = negb (Nat.eqb (detachCount l) 0).
Proof.
  unfold detachCount. induction l as [|a l IH]; [reflexivity|].
  simpl. now destruct (isDetach a).
Qed.

Lemma existsb_filter_notRm (l : list string) :
  existsb isRm (filter notRm l) = false.
Proof.
  unfold notRm. induction l as [|a l IH]; [reflexivity|].
  simpl. destruct (isRm a) eqn:E; simpl; [assumption|]. now rewrite E.
Qed.

(** ** Facts about [setupEnvironment] and [parseContext] *)

Lemma HasPrefix_HOME (e : string) :
  strings_HasPrefix e "HOME=" = keyIs "HOME" e.
Proof. exact (HasPrefix_keyIs "HOME" e eq_refl). Qed.

Lemma HasPrefix_PATH (e : string) :
  strings_HasPrefix e "PATH=" = keyIs "PATH" e.
Proof. exact (HasPrefix_keyIs "PATH" e eq_refl). Qed.

Lemma inherit_fold (environ acc : list string) :
  fold_left
    (fun acc val =>
       if negb (strings_HasPrefix val "HOME=")
          && negb (strings_HasPrefix val "PATH=")
       then acc ++ ["-e"; val] else acc)
    environ acc
  = acc ++ envFlags (inherited environ).
Proof.
  revert acc; induction environ as [|e l IH]; intros acc.
  - simpl. now rewrite app_nil_r.
  - cbn [fold_left]. rewrite IH, HasPrefix_HOME, HasPrefix_PATH.
    unfold inherited. cbn [filter]. rewrite negb_orb.
    destruct (negb (keyIs "HOME" e) && negb (keyIs "PATH" e)).
    + cbn [envFlags flat_map]. now rewrite <- app_assoc.
    + reflexivity.
Qed.

Lemma setupEnvironment_Args (environ : list string) (c : Context) :
  Args (setupEnvironment environ c) = injected environ c ++ Args c.
Proof.
  unfold setupEnvironment, injected, notifyArgs.
  destruct (Notify c && negb (String.eqb (NotifySocket c) "")).
  - destruct (Env c).
    + rewrite inherit_fold. reflexivity.
    + reflexivity.
  - replace (Env (set_Notify false c)) with (Env c) by reflexivity.
    destruct (Env c); simpl.
    + rewrite inherit_fold. simpl.
      destruct (envFlags (inherited environ)); reflexivity.
    + reflexivity.
Qed.

(** [setupEnvironment] touches [Args] and [Notify] only. *)
Lemma setupEnvironment_fields (environ : list string) (c : Context) :
  let c' := setupEnvironment environ c in
  Logs c' = Logs c /\ Name c' = Name c /\ Env c' = Env c /\ Rm c' = Rm c /\
  Id c' = Id c /\ NotifySocket c' = NotifySocket c /\ Cmd c' = Cmd c /\
  Pid c' = Pid c /\ PidFile c' = PidFile c /\ Client c' = Client c /\
  Notify c' = Notify c && negb (String.eqb (NotifySocket c) "").
Proof.
  unfold setupEnvironment.
  destruct (Notify c && negb (String.eqb (NotifySocket c) "")) eqn:E.
  - apply andb_true_iff in E as [E _].
    destruct (Env c) eqn:Ee;
      [destruct (fold_left _ _ _)|]; simpl; repeat split;
      solve [reflexivity | assumption].
  - destruct (Env (set_Notify false c)) eqn:Ee;
      [destruct (fold_left _ _ _)|]; simpl; repeat split;
      solve [reflexivity | exact Ee].
Qed.

Lemma findRunArg_app (own rest : list string) :
  ~ In "run" own ->
  findRunArg (own ++ "run" :: rest) = Z.of_nat (length own).
Proof.
  induction own as [|a own IH]; intros H.
  - reflexivity.
  - simpl app. cbn [findRunArg].
    destruct (String.eqb_spec a "run") as [->|_].
    + exfalso. apply H. now left.
    + rewrite IH by (intros Hin; apply H; now right).
      destruct (Z.ltb_spec (Z.of_nat (length own)) 0); [lia|].
      cbn [length]. lia.
Qed.

(** Without [run] nothing is parsed. *)
Lemma findRunArg_none (args : list string) :
  ~ In "run" args -> findRunArg args = (-1)%Z.
Proof.
  induction args as [|a args IH]; intros H; [reflexivity|].
  cbn [findRunArg].
  destruct (String.eqb_spec a "run") as [->|_].
  - exfalso. apply H. now left.
  - rewrite IH by (intros Hin; apply H; now right). reflexivity.
Qed.

Lemma parseContext_run `{FlagGrammar} (environ own runArgs : list string) :
  ~ In "run" own ->
  parseContext environ (own ++ "run" :: runArgs) =
  match flags_Parse own with
  | inl f => inl (setupEnvironment environ (scannedContext environ f runArgs))
  | inr err => inr err
  end.
Proof.
  intros Hown. unfold parseContext.
  rewrite (findRunArg_app own runArgs Hown).
  destruct (Z.ltb_spec (Z.of_nat (length own)) 0); [lia|].
  rewrite Nat2Z.id.
  rewrite firstn_app, firstn_all, Nat.sub_diag, app_nil_r.
  replace (skipn (length own + 1) (own ++ "run" :: runArgs)) with runArgs.
  - reflexivity.
  - rewrite skipn_app, skipn_all2 by lia.
    replace (length own + 1 - length own) with 1 by lia. reflexivity.
Qed.

(** The tokens put in front of the arguments are none of the tokens the
    scan looks for, as long as the environment entries have the form
    [key=value]. *)
Lemma injected_plain (environ : list string) (c : Context) :
  forallb isKeyValue environ = true ->
  existsb isRm (injected environ c) = false /\
  existsb isDetach (injected environ c) = false.
Proof.
  intros Henv. unfold injected.
  assert (Hn : existsb isRm (notifyArgs c) = false /\
               existsb isDetach (notifyArgs c) = false).
  { unfold notifyArgs. destruct (Notify c && _); [|now split].
    assert (Hv : hasChar ":" (NotifySocket c ++ ":" ++ NotifySocket c) = true).
    { rewrite hasChar_app. simpl. now rewrite orb_true_r. }
    destruct (hasChar_plain ":" _ Hv) as [Hr Hd]; [now right|].
    cbn [existsb]. rewrite Hr, Hd. now split. }
  assert (He : existsb isRm (envFlags (inherited environ)) = false /\
               existsb isDetach (envFlags (inherited environ)) = false).
  { unfold inherited. induction environ as [|e l IH]; [now split|].
    simpl in Henv. apply andb_true_iff in Henv as [He Hl].
    specialize (IH Hl). cbn [filter].
    destruct (negb _); [|assumption].
    destruct (isKeyValue_plain _ He) as [Hr Hd].
    cbn [envFlags flat_map app existsb]. rewrite Hr, Hd.
    destruct IH as [IH1 IH2]. split; [exact IH1 | exact IH2]. }
  rewrite !existsb_app.
  destruct Hn as [-> ->]. destruct (Env c); [destruct He as [-> ->]|]; now split.
Qed.

Lemma findRunArg_split (args : list string) :
  (findRunArg args < 0)%Z \/
  exists own rest, args = own ++ "run" :: rest /\ ~ In "run" own.
Proof.
  induction args as [|a args IH]; [left; reflexivity|].
  cbn [findRunArg]. destruct (String.eqb_spec a "run") as [->|Ha].
  - right. exists [], args. split; [reflexivity | intros []].
  - destruct IH as [IH|(own & rest & -> & Hown)].
    + left. apply Z.ltb_lt in IH. rewrite IH. reflexivity.
    + right. exists (a :: own), rest. split; [reflexivity|].
      intros [E|Hin]; [now apply Ha | now apply Hown].
Qed.

(** What an accepted command line looks like. *)
Lemma parseContext_inl `{FlagGrammar} (environ args : list string)
      (c : Context) :
  parseContext environ args = inl c ->
  exists own runArgs f,
    args = own ++ "run" :: runArgs /\ ~ In "run" own /\
    flags_Parse own = inl f /\
    c = setupEnvironment environ (scannedContext environ f runArgs).
Proof.
  intros Hp. destruct (findRunArg_split args) as [Hneg|(own & rest & -> & Ho)].
  - unfold parseContext in Hp. apply Z.ltb_lt in Hneg. rewrite Hneg in Hp.
    discriminate.
  - rewrite (parseContext_run environ own rest Ho) in Hp.
    destruct (flags_Parse own) as [f|err] eqn:Ef; [|discriminate].
    exists own, rest, f. inversion Hp. now repeat split.
Qed.

Lemma injected_setupEnvironment (environ : list string) (c : Context) :
  injected environ (setupEnvironment environ c) = injected environ c.
Proof.
  destruct (setupEnvironment_fields environ c)
    as (_ & _ & He & _ & _ & Hs & _ & _ & _ & _ & Hn).
  unfold injected, notifyArgs. rewrite He, Hs, Hn.
  now destruct (Notify c), (negb (String.eqb (NotifySocket c) "")).
Qed.

(** The rewritten arguments of an accepted command line. *)
Lemma parsed_Args (environ : list string) (f : OwnFlags)
      (runArgs : list string) :
  let c := setupEnvironment environ (scannedContext environ f runArgs) in
  Args c = injected environ c
           ++ (if existsb isDetach runArgs then [] else ["-d"])
           ++ filter notRm runArgs.
Proof.
  intros c. unfold c.
  rewrite injected_setupEnvironment, setupEnvironment_Args.
  unfold scannedContext at 2. cbn [Args].
  now rewrite scanRunArgs_newArgs.
Qed.

Lemma detachCount_parsed (environ : list string) (f : OwnFlags)
      (runArgs : list string) :
  forallb isKeyValue environ = true ->
  detachCount
    (Args (setupEnvironment environ (scannedContext environ f runArgs)))
  = Nat.max 1 (detachCount runArgs).
Proof.
  intros Henv. rewrite parsed_Args, !detachCount_app, detachCount_notRm.
  destruct (injected_plain environ
              (setupEnvironment environ (scannedContext environ f runArgs))
              Henv) as [_ Hd].
  rewrite existsb_isDetach_count in Hd.
  apply negb_false_iff, Nat.eqb_eq in Hd. rewrite Hd.
  rewrite (existsb_isDetach_count runArgs).
  destruct (Nat.eqb_spec (detachCount runArgs) 0) as [->|Hn]; cbn [negb].
  - reflexivity.
  - change (detachCount []) with 0. lia.
Qed.

(** C2. When the run arguments hold none of [-d], [-detach], [--detach],
    the rewritten arguments are the injected flags, then one [-d], then
    the run arguments in their order with only the auto-remove tokens
    taken out; that [-d] is the only detach token of the vector.  The
    environment entries are taken to have the form [key=value]. *)
Theorem forced_detach_when_absent `{FlagGrammar}
        (environ own runArgs : list string) (f : OwnFlags) :
  ~ In "run" own ->
  flags_Parse own = inl f ->
  forallb isKeyValue environ = true ->
  existsb isDetach runArgs = false ->
  exists c,
    parseContext environ (own ++ "run" :: runArgs) = inl c /\
    Args c = injected environ c ++ "-d" :: filter notRm runArgs /\
    existsb isDetach (injected environ c) = false /\
    existsb isDetach (filter notRm runArgs) = false /\
    detachCount (Args c) = 1 /\
    scan_newArgs (scanRunArgs runArgs) = "-d" :: filter notRm runArgs.
Proof.
  intros Hown Hf Henv Hd.
  rewrite (parseContext_run environ own runArgs Hown), Hf.
  eexists. split; [reflexivity|].
  split; [|split; [|split; [|split]]].
  - rewrite parsed_Args, Hd. reflexivity.
  - now apply injected_plain.
  - rewrite existsb_isDetach_count, detachCount_notRm,
      <- existsb_isDetach_count. exact Hd.
  - rewrite (detachCount_parsed _ _ _ Henv).
    rewrite existsb_isDetach_count in Hd.
    apply negb_false_iff, Nat.eqb_eq in Hd. now rewrite Hd.
  - now rewrite scanRunArgs_newArgs, Hd.
Qed.

Lemma forced_detach_when_absent_witness :
  exists c,
    @parseContext sampleGrammar ["HOME=/root"; "FOO=bar"]
      (["--env"] ++ "run" :: ["--name"; "web"; "--rm"; "nginx"]) = inl c /\
    Args c = injected ["HOME=/root"; "FOO=bar"] c
             ++ "-d" :: filter notRm ["--name"; "web"; "--rm"; "nginx"] /\
    existsb isDetach (injected ["HOME=/root"; "FOO=bar"] c) = false /\
    existsb isDetach (filter notRm ["--name"; "web"; "--rm"; "nginx"]) = false /\
    detachCount (Args c) = 1 /\
    scan_newArgs (scanRunArgs ["--name"; "web"; "--rm"; "nginx"]) =
    "-d" :: filter notRm ["--name"; "web"; "--rm"; "nginx"].
Proof.
  apply (@forced_detach_when_absent sampleGrammar
           ["HOME=/root"; "FOO=bar"] ["--env"]
           ["--name"; "web"; "--rm"; "nginx"]
           {| flag_PidFile := ""; flag_Logs := true;
              flag_Notify := false; flag_Env := true |}).
  - simpl. intros [E|[]]. discriminate E.
  - reflexivity.
  - reflexivity.
  - reflexivity.
Defined.

(** C3, as the code has it.  The scan notes detach tokens and leaves them
    where they are, so an accepted command line with [k] detach tokens
    among its run arguments is rewritten to one with [max 1 k] of them:
    one forced [-d] when the user gave none, the user's own otherwise. *)
Theorem detach_at_least_once `{FlagGrammar}
        (environ args : list string) (c : Context) :
  parseContext environ args = inl c ->
  forallb isKeyValue environ = true ->
  exists own runArgs,
    args = own ++ "run" :: runArgs /\ ~ In "run" own /\
    detachCount (Args c) = Nat.max 1 (detachCount runArgs) /\
    1 <= detachCount (Args c).
Proof.
  intros Hp Henv.
  destruct (parseContext_inl _ _ _ Hp) as (own & runArgs & f & -> & Ho & _ & ->).
  exists own, runArgs. rewrite (detachCount_parsed _ _ _ Henv).
  repeat split; [assumption | lia].
Qed.

Lemma detach_at_least_once_witness :
  exists own runArgs,
    ["--env"; "run"; "-d"; "--detach"; "img"] = own ++ "run" :: runArgs /\
    ~ In "run" own /\
    detachCount ["-e"; "FOO=bar"; "-d"; "--detach"; "img"]
    = Nat.max 1 (detachCount runArgs) /\
    1 <= detachCount ["-e"; "FOO=bar"; "-d"; "--detach"; "img"].
Proof.
  apply (@detach_at_least_once sampleGrammar ["FOO=bar"]
           ["--env"; "run"; "-d"; "--detach"; "img"]
           (mkContext ["-e"; "FOO=bar"; "-d"; "--detach"; "img"]
                      true false "" true false "" "" None 0%Z "" None)).
  - reflexivity.
  - reflexivity.
Defined.

(** C3, as stated, fails: two detach tokens of the user both stay. *)
Lemma detach_twice_counterexample :
  exists c,
    @parseContext sampleGrammar [] ["run"; "-d"; "-d"; "img"] = inl c /\
    Args c = ["-d"; "-d"; "img"] /\
    detachCount (Args c) = 2.
Proof. eexists. repeat split. Qed.

Lemma keyIs_envKey (key e : string) :
  keyIs key e = true <-> envKey e = Some key.
Proof.
  unfold keyIs. destruct (envKey e) as [k|]; [|split; discriminate].
  rewrite String.eqb_eq. split; congruence.
Qed.

Lemma inherited_spec (environ : list string) (e : string) :
  In e (inherited environ) <->
  In e environ /\ envKey e <> Some "HOME" /\ envKey e <> Some "PATH".
Proof.
  unfold inherited. rewrite filter_In, negb_true_iff, orb_false_iff.
  rewrite <- !keyIs_envKey, !not_true_iff_false. reflexivity.
Qed.

(** C7. With [--env], the rewritten arguments are the notify flags, then
    one [-e entry] pair for every environment entry whose key is neither
    [HOME] nor [PATH], in the order of the environment, then the scanned
    run arguments.  For the environment [HOME=/root], [PATH=/bin],
    [FOO=bar] the pair for [FOO=bar] is the only thing put in front. *)
Theorem env_inheritance `{FlagGrammar}
        (environ own runArgs : list string) (f : OwnFlags) :
  ~ In "run" own ->
  flags_Parse own = inl f ->
  flag_Env f = true ->
  exists c,
    parseContext environ (own ++ "run" :: runArgs) = inl c /\
    Args c = notifyArgs c ++ envFlags (inherited environ)
             ++ scan_newArgs (scanRunArgs runArgs) /\
    (forall e, In e (inherited environ) <->
               In e environ /\
               envKey e <> Some "HOME" /\ envKey e <> Some "PATH") /\
    (environ = ["HOME=/root"; "PATH=/bin"; "FOO=bar"] ->
     Args c = ["-e"; "FOO=bar"] ++ scan_newArgs (scanRunArgs runArgs)).
Proof.
  intros Hown Hf He.
  rewrite (parseContext_run environ own runArgs Hown), Hf.
  eexists. split; [reflexivity|].
  assert (HA : Args (setupEnvironment environ
                       (scannedContext environ f runArgs))
               = notifyArgs (setupEnvironment environ
                               (scannedContext environ f runArgs))
                 ++ envFlags (inherited environ)
                 ++ scan_newArgs (scanRunArgs runArgs)).
  { rewrite setupEnvironment_Args at 1.
    rewrite <- (injected_setupEnvironment environ) at 1.
    unfold injected.
    destruct (setupEnvironment_fields environ
                (scannedContext environ f runArgs))
      as (_ & _ & -> & _).
    unfold scannedContext at 2 3. cbn [Env Args]. rewrite He.
    now rewrite <- app_assoc. }
  split; [exact HA|]. split; [apply inherited_spec|].
  intros ->. rewrite HA.
  replace (notifyArgs _) with (@nil string); [reflexivity|].
  unfold notifyArgs.
  destruct (setupEnvironment_fields ["HOME=/root"; "PATH=/bin"; "FOO=bar"]
              (scannedContext ["HOME=/root"; "PATH=/bin"; "FOO=bar"]
                              f runArgs))
    as (_ & _ & _ & _ & _ & -> & _).
  cbn. now rewrite andb_false_r.
Qed.

Lemma env_inheritance_witness :
  exists c,
    @parseContext sampleGrammar ["HOME=/root"; "PATH=/bin"; "FOO=bar"]
      (["--env"] ++ "run" :: ["nginx"]) = inl c /\
    Args c = ["-e"; "FOO=bar"; "-d"; "nginx"].
Proof.
  destruct (@env_inheritance sampleGrammar
              ["HOME=/root"; "PATH=/bin"; "FOO=bar"] ["--env"] ["nginx"]
              {| flag_PidFile := ""; flag_Logs := true;
                 flag_Notify := false; flag_Env := true |})
    as (c & Hc & _ & _ & Hargs).
  - simpl. intros [E|[]]. discriminate E.
  - reflexivity.
  - reflexivity.
  - exists c. split; [exact Hc | exact (Hargs eq_refl)].
Defined.

(** ** Name capture *)

Lemma scanLoop_name_next (pre : list string) (flag value : string)
      (post : list string) (s : Scan) :
  isNameFlag flag = true ->
  strings_Contains flag "=" = false ->
  existsb isNameFlag (value :: post) = false ->
  scan_name (scanLoop (pre ++ flag :: value :: post) s) = value.
Proof.
  intros Hf He Hrest. revert s.
  induction pre as [|a pre IH]; intros s.
  - cbn [app scanLoop]. fold (scanLoop (value :: post)).
    change (scanLoop post (scanStep value post
                            (scanStep flag (value :: post) s)))
      with (scanLoop (value :: post) (scanStep flag (value :: post) s)).
    rewrite (scanLoop_name_unchanged _ _ Hrest), scanStep_name, Hf, He.
    reflexivity.
  - cbn [app scanLoop]. apply IH.
Qed.

Lemma scanLoop_name_trailing (pre : list string) (flag : string) (s : Scan) :
  isNameFlag flag = true ->
  strings_Contains flag "=" = false ->
  existsb isNameFlag pre = false ->
  scan_name (scanLoop (pre ++ [flag]) s) = scan_name s.
Proof.
  intros Hf He. revert s.
  induction pre as [|a pre IH]; intros s Hpre.
  - cbn [app scanLoop]. now rewrite scanStep_name, Hf, He.
  - cbn [existsb] in Hpre. apply orb_false_iff in Hpre as [Ha Hpre].
    cbn [app scanLoop]. rewrite (IH _ Hpre), scanStep_name, Ha. reflexivity.
Qed.

Lemma Name_parsed (environ : list string) (f : OwnFlags)
      (runArgs : list string) :
  Name (setupEnvironment environ (scannedContext environ f runArgs))
  = scan_name (scanLoop runArgs (mkScan false false "" [])).
Proof.
  destruct (setupEnvironment_fields environ
              (scannedContext environ f runArgs)) as (_ & -> & _).
  unfold scannedContext. cbn [Name]. apply scanRunArgs_name.
Qed.

(** C9, as stated, fails: the token after [--name] is taken as the name
    and is still stripped when it is an auto-remove token. *)
Lemma name_value_stripped_counterexample :
  exists c,
    @parseContext sampleGrammar [] ["run"; "--name"; "--rm"; "img"] = inl c /\
    Name c = "--rm" /\
    Args c = ["-d"; "--name"; "img"] /\
    ~ In "--rm" (Args c).
Proof.
  eexists. repeat split. cbn. intros [E|[E|[E|[]]]]; discriminate E.
Qed.

(** C9, as the code has it.  A token is a name flag as soon as it starts
    with [-name] or [--name].  In the form without [=], when no later
    token is a name flag again, the name is the token that follows; the
    flag stays where it is, and so does the value unless it is [-rm] or
    [--rm], which the scan strips like any other.  A name flag at the very
    end, with no name flag before it, leaves the name empty, and the
    command line is accepted. *)
Theorem name_capture `{FlagGrammar}
        (environ own : list string) (f : OwnFlags) :
  ~ In "run" own ->
  flags_Parse own = inl f ->
  (isNameFlag "--namespace" = true /\ isNameFlag "-named" = true /\
   forall suffix, isNameFlag ("-name" ++ suffix) = true /\
                  isNameFlag ("--name" ++ suffix) = true) /\
  (forall pre flag value post,
      isNameFlag flag = true ->
      strings_Contains flag "=" = false ->
      existsb isNameFlag (value :: post) = false ->
      exists c,
        parseContext environ (own ++ "run" :: pre ++ flag :: value :: post)
        = inl c /\
        Name c = value /\
        Args c = injected environ c
                 ++ (if existsb isDetach (pre ++ flag :: value :: post)
                     then [] else ["-d"])
                 ++ filter notRm pre
                 ++ flag :: (if isRm value then [] else [value])
                 ++ filter notRm post) /\
  (forall pre flag,
      isNameFlag flag = true ->
      strings_Contains flag "=" = false ->
      existsb isNameFlag pre = false ->
      exists c,
        parseContext environ (own ++ "run" :: pre ++ [flag]) = inl c /\
        Name c = "" /\
        Args c = injected environ c
                 ++ (if existsb isDetach (pre ++ [flag]) then [] else ["-d"])
                 ++ filter notRm pre ++ [flag]).
Proof.
  intros Hown Hf. split; [|split].
  - split; [reflexivity|]. split; [reflexivity|].
    intros suffix. unfold isNameFlag. split.
    + change ("-name" ++ suffix)%string with ("-name" ++ suffix)%string.
      now rewrite (HasPrefix_app "-name" suffix).
    + rewrite (HasPrefix_app "--name" suffix). apply orb_true_r.
  - intros pre flag value post Hflag Heq Hrest.
    rewrite (parseContext_run environ own _ Hown), Hf.
    eexists. split; [reflexivity|]. split.
    + rewrite Name_parsed. now apply scanLoop_name_next.
    + rewrite parsed_Args. do 2 f_equal.
      rewrite filter_app. cbn [filter]. unfold notRm at 2 3.
      rewrite (isNameFlag_not_rm _ Hflag). cbn [negb].
      now destruct (isRm value).
  - intros pre flag Hflag Heq Hpre.
    rewrite (parseContext_run environ own _ Hown), Hf.
    eexists. split; [reflexivity|]. split.
    + rewrite Name_parsed. now rewrite scanLoop_name_trailing.
    + rewrite parsed_Args. do 2 f_equal.
      rewrite filter_app. cbn [filter]. unfold notRm at 2.
      now rewrite (isNameFlag_not_rm _ Hflag).
Qed.

Lemma name_capture_witness :
  (exists c,
      @parseContext sampleGrammar ["FOO=bar"]
        ([] ++ "run" :: ["-i"] ++ "--namespace" :: "web" :: ["img"]) = inl c /\
      Name c = "web" /\
      Args c = ["-d"; "-i"; "--namespace"; "web"; "img"]) /\
  (exists c,
      @parseContext sampleGrammar ["FOO=bar"]
        ([] ++ "run" :: ["img"] ++ ["-name"]) = inl c /\
      Name c = "" /\
      Args c = ["-d"; "img"; "-name"]).
Proof.
  destruct (@name_capture sampleGrammar ["FOO=bar"] []
              {| flag_PidFile := ""; flag_Logs := true;
                 flag_Notify := false; flag_Env := false |})
    as (_ & Hnext & Hlast).
  - intros [].
  - reflexivity.
  - split.
    + destruct (Hnext ["-i"] "--namespace" "web" ["img"])
        as (c & Hc & Hn & Ha); try reflexivity.
      exists c. split; [exact Hc|]. split; [exact Hn|].
      rewrite Ha. inversion Hc. reflexivity.
    + destruct (Hlast ["img"] "-name") as (c & Hc & Hn & Ha);
        try reflexivity.
      exists c. split; [exact Hc|]. split; [exact Hn|].
      rewrite Ha. inversion Hc. reflexivity.
Defined.


Section PidFile.
Context {W : Type} {P : Platform W}.

Lemma pidFile_skips (c : Context) (w : W) :
  PidFile c = "" \/ (Pid c <= 0)%Z ->
  pidFile c w = mkRun (Returned None) w [].
Proof.
  intros H. unfold pidFile.
  replace (String.eqb (PidFile c) "" || (Pid c <=? 0)%Z) with true;
    [reflexivity|].
  symmetry. apply orb_true_iff. destruct H as [->|H]; [now left|right].
  now apply Z.leb_le.
Qed.

Lemma pidFile_writes (c : Context) (w : W) :
  PidFile c <> "" -> (0 < Pid c)%Z ->
  exists err w',
    ioutil_WriteFile (PidFile c) (strconv_Itoa (Pid c)) 420 w = (err, w') /\
    pidFile c w =
    mkRun (Returned err) w'
          [EvWriteFile (PidFile c) (strconv_Itoa (Pid c)) 420 err].
Proof.
  intros Hf Hp. unfold pidFile.
  apply String.eqb_neq in Hf. rewrite Hf.
  replace (Pid c <=? 0)%Z with false by (symmetry; apply Z.leb_gt; lia).
  cbn [orb]. unfold WriteFile. run_program.
  destruct (ioutil_WriteFile _ _ _ w) as [err w'] eqn:E.
  exists err, w'. split; [reflexivity|].
  cbn. now destruct err.
Qed.
End PidFile.

(** The text [strconv.Itoa] produces reads back as the number. *)
Lemma Itoa_reads_back (n : Z) :
  option_map Z.of_int (NilEmpty.int_of_string (strconv_Itoa n)) = Some n.
Proof.
  unfold strconv_Itoa. rewrite NilEmpty.isi. simpl. f_equal.
  apply DecimalZ.of_to.
Qed.

Section Notify.
Context {W : Type} {P : Platform W}.

Lemma notify_paths (c : Context) (w : W) : NotifyPath c (notify c w).
Proof.
  unfold notify, pidDied, Stat, Dial, connWrite, connClose, Getpid.
  run_program.
  destruct (os_Stat _ w) as [e w1]. cbn.
  destruct (os_IsNotExist e) eqn:He; cbn; [now constructor|].
  destruct (String.eqb_spec (NotifySocket c) "") as [Hs|Hs]; cbn;
    [now constructor|].
  destruct (net_Dial _ _ w1) as [[err|] w2]; cbn; [now constructor|].
  destruct (conn_Write _ w2) as [[err|] w3]; cbn; [now constructor|].
  destruct (os_Stat _ w3) as [e2 w4]. cbn.
  destruct (os_IsNotExist e2) eqn:He2; cbn.
  - destruct (conn_Write _ w4) as [err2 w5]. cbn. now constructor.
  - destruct (Notify c) eqn:Hn; cbn; [now constructor|].
    destruct (conn_Write _ w4) as [[err|] w5]; cbn; now constructor.
Qed.
End Notify.

Section NotifyClaims.
Context {W : Type} {P : Platform W}.

(** C5. When the first look into [/proc] finds the process gone,
    [notify] fails with the early-exit error and its only call is that
    look: nothing is dialled, nothing is sent.  In every run in which some
    liveness check finds the process gone, [notify] fails with the
    early-exit error and no [READY=1] datagram is written. *)
Theorem notify_dead_process (c : Context) (w : W) :
  (os_IsNotExist (fst (os_Stat ("/proc/" ++ strconv_Itoa (Pid c)) w)) = true ->
   value (notify c w) = Returned (Some errEarlyExit) /\
   datagrams (events (notify c w)) = [] /\
   forall ev, In ev (events (notify c w)) ->
              exists path err, ev = EvStat path err) /\
  (In true (livenessChecks (events (notify c w))) ->
   value (notify c w) = Returned (Some errEarlyExit) /\
   ~ In "READY=1" (datagrams (events (notify c w)))).
Proof.
  split.
  - intros H. unfold notify, pidDied, Stat. run_program.
    destruct (os_Stat _ w) as [e w1]. cbn in *. rewrite H. cbn.
    repeat split. intros ev [<-|[]]. now eauto.
  - intros H. destruct (notify_paths c w)
      as [e w1 He|e w1 He Hs|e w1 err He Hs|e w1 err He Hs
          |e w1 e2 err2 He Hs He2|e w1 e2 err He Hs He2 Hn
          |e w1 e2 He Hs He2 Hn|e w1 e2 He Hs He2 Hn];
      cbn in H |- *; rewrite ?He, ?He2 in H;
      try (split; [reflexivity|]); cbn;
      try (exfalso; intuition discriminate).
    + intros [].
    + intros [E|[E|[]]]; discriminate E.
Qed.

End NotifyClaims.

Section RunContainer.
Context {W : Type} {P : Platform W}.
Variable environ : list string.

Lemma getContainerPid_rejects (c : Context) (w w' : W)
      (client : dockerClient.Client) (cont : dockerClient.Container) :
  getClient environ c = inl client ->
  client_InspectContainer client (Id c) w = ((Some cont, None), w') ->
  (dockerClient.Pid (dockerClient.State_ cont) <= 0)%Z ->
  getContainerPid environ c w =
  mkRun (Returned (0%Z, Some (errPidIs
                                (dockerClient.Pid (dockerClient.State_ cont))
                                (Id c))))
        w' [EvInspectContainer (Id c) (Some cont) None].
Proof.
  intros Hc Hi Hp. unfold getContainerPid, InspectContainer.
  rewrite Hc. run_program. rewrite Hi. cbn.
  apply Z.leb_le in Hp. rewrite Hp. reflexivity.
Qed.

(** A pid that [getContainerPid] returns without error is positive. *)
Lemma getContainerPid_positive (c : Context) (w : W) (pid : Z) :
  value (getContainerPid environ c w) = Returned (pid, None) ->
  (0 < pid)%Z.
Proof.
  unfold getContainerPid, InspectContainer.
  destruct (getClient environ c) as [client|err]; [|discriminate].
  run_program.
  destruct (client_InspectContainer client (Id c) w)
    as [[[cont|] [err|]] w']; cbn; try discriminate.
  destruct (Z.leb_spec (dockerClient.Pid (dockerClient.State_ cont)) 0)
    as [Hle|Hlt]; cbn; [discriminate|].
  intros H. inversion H. subst. assumption.
Qed.

Lemma lookup_running (c : Context) (w w' : W)
      (client : dockerClient.Client) (cont : dockerClient.Container) :
  getClient environ c = inl client ->
  client_InspectContainer client (Name c) w = ((Some cont, None), w') ->
  dockerClient.Running (dockerClient.State_ cont) = true ->
  lookupNamedContainer environ c w =
  mkRun (Returned
           (set_Pid (dockerClient.Pid (dockerClient.State_ cont))
                    (set_Id (dockerClient.ID cont) c), None))
        w' [EvInspectContainer (Name c) (Some cont) None].
Proof.
  intros Hc Hi Hr. unfold lookupNamedContainer, InspectContainer.
  rewrite Hc. run_program. rewrite Hi. cbn. rewrite Hr. reflexivity.
Qed.

(** Attaching to a running container: one inspection, nothing else. *)
Lemma runContainer_attach (c : Context) (w w' : W)
      (client : dockerClient.Client) (cont : dockerClient.Container) :
  Name c <> "" ->
  getClient environ c = inl client ->
  client_InspectContainer client (Name c) w = ((Some cont, None), w') ->
  dockerClient.Running (dockerClient.State_ cont) = true ->
  dockerClient.ID cont <> "" ->
  runContainer environ c w =
  mkRun (Returned
           (set_Pid (dockerClient.Pid (dockerClient.State_ cont))
                    (set_Id (dockerClient.ID cont) c),
            if (dockerClient.Pid (dockerClient.State_ cont) =? 0)%Z
            then Some errPidIsZero else None))
        w' [EvInspectContainer (Name c) (Some cont) None].
Proof.
  intros Hn Hc Hi Hr Hid. unfold runContainer.
  apply String.eqb_neq in Hn. rewrite Hn. cbn [negb].
  unfold bind at 1. rewrite (lookup_running c w w' client cont Hc Hi Hr).
  cbn [value world events]. unfold bind.
  cbn [Id set_Pid set_Id]. apply String.eqb_neq in Hid. rewrite Hid.
  cbn. now destruct (_ =? 0)%Z.
Qed.

(** A run that [runContainer] reports as a success has a pid other
    than 0. *)
Lemma runContainer_pid_nonzero (c c' : Context) (w : W) :
  value (runContainer environ c w) = Returned (c', None) ->
  Pid c' <> 0%Z.
Proof.
  unfold runContainer, bind.
  match goal with
  | |- context [value (?m w)] => destruct (m w) as [[[c1 [e1|]]|] w1 ev1]
  end; cbn; try discriminate.
  match goal with
  | |- context [value (?m w1)] => destruct (m w1) as [[[c2 [e2|]]|] w2 ev2]
  end; cbn; try discriminate.
  destruct (Z.eqb_spec (Pid c2) 0) as [Hz|Hz]; cbn; [discriminate|].
  intros H. inversion H. now subst.
Qed.

Lemma runContainer_needs_client (c c' : Context) (w : W) :
  Name c <> "" ->
  value (runContainer environ c w) = Returned (c', None) ->
  exists client, getClient environ c = inl client.
Proof.
  intros Hn. apply String.eqb_neq in Hn.
  unfold runContainer, bind. rewrite Hn. cbn [negb].
  unfold lookupNamedContainer.
  destruct (getClient environ c) as [client|err]; [now eauto|].
  cbn. discriminate.
Qed.
End RunContainer.

Section RuntimeClaims.
Context {W : Type} {P : Platform W}.
Variable environ : list string.

(** The only command [launchContainer] starts is [docker run] with the
    rewritten arguments. *)
Lemma launchContainer_command (c : Context) (w : W)
      (name : string) (args : list string) :
  In (EvCommand name args) (events (launchContainer environ c w)) ->
  name = "docker" /\ args = "run" :: Args c.
Proof.
  unfold launchContainer, Command, getContainerPid, InspectContainer.
  run_program.
  destruct (exec_Command "docker" ("run" :: Args c) w) as [r w1].
  cbn [value world events].
  assert (Hhead : forall tl,
             (forall n a, ~ In (EvCommand n a) tl) ->
             In (EvCommand name args)
                (EvCommand "docker" ("run" :: Args c) :: tl) ->
             name = "docker" /\ args = "run" :: Args c).
  { intros tl Htl [E|Hin].
    - inversion E. now split.
    - now elim (Htl name args). }
  assert (Hnil : forall n a, ~ In (EvCommand n a) []) by (intros n a []).
  assert (Hone : forall id cont err n a,
             ~ In (EvCommand n a) [EvInspectContainer id cont err]).
  { intros id cont err n a [E|[]]. discriminate E. }
  destruct (StderrPipe r); [exact (Hhead [] Hnil)|].
  destruct (StdoutPipe r); [exact (Hhead [] Hnil)|].
  destruct (Start r); [exact (Hhead [] Hnil)|].
  destruct (ReadAll r) as [bytes [err|]]; [exact (Hhead [] Hnil)|].
  destruct (Wait r); [exact (Hhead [] Hnil)|].
  destruct (Success r); cbn [negb]; [|exact (Hhead [] Hnil)].
  destruct (getClient environ _) as [client|err]; cbn;
    [|exact (Hhead [] Hnil)].
  destruct (client_InspectContainer client _ w1) as [[[cont|] [err|]] w2];
    cbn; try exact (Hhead [_] (Hone _ _ _)).
  destruct (_ <=? 0)%Z; cbn; exact (Hhead [_] (Hone _ _ _)).
Qed.

Lemma rmContainer_removes (c : Context) (w : W)
      (client : dockerClient.Client) :
  Rm c = true ->
  getClient environ c = inl client ->
  exists err w',
    client_RemoveContainer client
      {| dockerClient.RmID := Id c; dockerClient.Force := true |} w
    = (err, w') /\
    rmContainer environ c w =
    mkRun (Returned err) w'
          [EvRemoveContainer
             {| dockerClient.RmID := Id c; dockerClient.Force := true |}
             err].
Proof.
  intros Hr Hc. unfold rmContainer, RemoveContainer, call.
  rewrite Hr, Hc. cbn [negb].
  destruct (client_RemoveContainer _ _ w) as [err w'].
  now exists err, w'.
Qed.

(** C1, where the code departs from it.  A named container that the
    daemon reports as running is adopted with the pid of the report; a
    negative pid passes, since [runContainer] only turns down the pid 0
    while [getContainerPid], on the launch path, turns down every pid
    that is not positive. *)
Theorem attach_accepts_negative_pid (c : Context) (w w' : W)
        (client : dockerClient.Client) (cont : dockerClient.Container) :
  Name c <> "" ->
  getClient environ c = inl client ->
  client_InspectContainer client (Name c) w = ((Some cont, None), w') ->
  dockerClient.Running (dockerClient.State_ cont) = true ->
  dockerClient.ID cont <> "" ->
  (dockerClient.Pid (dockerClient.State_ cont) < 0)%Z ->
  exists c',
    runContainer environ c w =
    mkRun (Returned (c', None)) w'
          [EvInspectContainer (Name c) (Some cont) None] /\
    Id c' = dockerClient.ID cont /\
    Pid c' = dockerClient.Pid (dockerClient.State_ cont) /\
    (Pid c' < 0)%Z.
Proof.
  intros Hn Hc Hi Hr Hid Hp.
  rewrite (runContainer_attach environ c w w' client cont Hn Hc Hi Hr Hid).
  replace (_ =? 0)%Z with false by (symmetry; apply Z.eqb_neq; lia).
  eexists. split; [reflexivity|]. now repeat split.
Qed.

(** C8. After an invocation that ended with a container id and pid, a
    second invocation for the same name, which finds that container
    running, ends with the same id and pid; all it does is inspect the
    container once: it starts no command, so no container is created,
    and it starts or removes nothing. *)
Theorem reattach_is_idempotent (c0 c1 : Context) (w1 w2 w2' : W)
        (client : dockerClient.Client) (cont : dockerClient.Container) :
  Name c0 <> "" ->
  value (runContainer environ c0 w1) = Returned (c1, None) ->
  Id c1 <> "" ->
  getClient environ c0 = inl client ->
  client_InspectContainer client (Name c0) w2 = ((Some cont, None), w2') ->
  dockerClient.Running (dockerClient.State_ cont) = true ->
  dockerClient.ID cont = Id c1 ->
  dockerClient.Pid (dockerClient.State_ cont) = Pid c1 ->
  exists c2,
    runContainer environ c0 w2 =
    mkRun (Returned (c2, None)) w2'
          [EvInspectContainer (Name c0) (Some cont) None] /\
    Id c2 = Id c1 /\ Pid c2 = Pid c1 /\
    forall name args,
      ~ In (EvCommand name args) (events (runContainer environ c0 w2)).
Proof.
  intros Hn Hfirst Hid1 Hc Hi Hr Hid Hpid.
  pose proof (runContainer_pid_nonzero environ c0 c1 w1 Hfirst) as Hnz.
  assert (Hid' : dockerClient.ID cont <> "") by now rewrite Hid.
  rewrite (runContainer_attach environ c0 w2 w2' client cont Hn Hc Hi Hr Hid').
  rewrite Hpid, Hid.
  replace (Pid c1 =? 0)%Z with false by (symmetry; now apply Z.eqb_neq).
  eexists. split; [reflexivity|]. repeat split.
  intros name args [E|[]]. discriminate E.
Qed.
End RuntimeClaims.

(** C10. [pidFile] returns without error and without touching anything
    when the path is empty or the pid is not positive.  Hence a pid file
    is only ever written for a positive pid: one [ioutil.WriteFile] call
    (which creates the file or truncates it) on the configured path, whose
    data is the decimal text of the pid and whose mode is [0644], readable
    by everyone.  With a path and a positive pid the call is made. *)
Theorem pidFile_stage {W : Type} {P : Platform W} (c : Context) (w : W) :
  (PidFile c = "" \/ (Pid c <= 0)%Z ->
   pidFile c w = mkRun (Returned None) w []) /\
  (forall filename data perm err,
      In (EvWriteFile filename data perm err) (events (pidFile c w)) ->
      (0 < Pid c)%Z /\
      filename = PidFile c /\
      data = strconv_Itoa (Pid c) /\
      option_map Z.of_int (NilEmpty.int_of_string data) = Some (Pid c) /\
      perm = 420%Z /\ Z.testbit perm 2 = true /\
      events (pidFile c w) = [EvWriteFile filename data perm err] /\
      value (pidFile c w) = Returned err) /\
  (PidFile c <> "" -> (0 < Pid c)%Z ->
   exists err,
     events (pidFile c w) =
     [EvWriteFile (PidFile c) (strconv_Itoa (Pid c)) 420 err]).
Proof.
  split; [apply pidFile_skips|]. split.
  - intros filename data perm err Hin.
    destruct (String.eqb_spec (PidFile c) "") as [Hf|Hf].
    { rewrite pidFile_skips in Hin by now left. destruct Hin. }
    destruct (Z.le_gt_cases (Pid c) 0) as [Hp|Hp].
    { rewrite pidFile_skips in Hin by now right. destruct Hin. }
    destruct (pidFile_writes c w Hf Hp) as (err' & w' & _ & Hrun).
    rewrite Hrun in Hin |- *. cbn in Hin |- *.
    destruct Hin as [E|[]]. inversion E; subst.
    repeat split; try reflexivity; [assumption | apply Itoa_reads_back].
  - intros Hf Hp.
    destruct (pidFile_writes c w Hf Hp) as (err & w' & _ & Hrun).
    exists err. now rewrite Hrun.
Qed.

(** What the scan does with auto-remove tokens. *)
Lemma rm_stripped_args `{FlagGrammar}
        (environ own runArgs : list string) (f : OwnFlags) :
  ~ In "run" own ->
  flags_Parse own = inl f ->
  forallb isKeyValue environ = true ->
  existsb isRm runArgs = true ->
  exists c,
    parseContext environ (own ++ "run" :: runArgs) = inl c /\
    Rm c = true /\
    existsb isRm (Args c) = false /\
    ~ In "-rm" (Args c) /\ ~ In "--rm" (Args c).
Proof.
  intros Hown Hf Henv Hrm.
  rewrite (parseContext_run environ own runArgs Hown), Hf.
  eexists. split; [reflexivity|].
  assert (Hno : existsb isRm
                  (Args (setupEnvironment environ
                           (scannedContext environ f runArgs))) = false).
  { rewrite parsed_Args, !existsb_app, existsb_filter_notRm.
    destruct (injected_plain environ
                (setupEnvironment environ (scannedContext environ f runArgs))
                Henv) as [-> _].
    now destruct (existsb isDetach runArgs). }
  split; [|split; [exact Hno|]].
  - destruct (setupEnvironment_fields environ
                (scannedContext environ f runArgs))
      as (_ & _ & _ & -> & _).
    unfold scannedContext. cbn [Rm]. now rewrite scanRunArgs_Rm.
  - split; intros Hin;
      (assert (Hex : existsb isRm
                 (Args (setupEnvironment environ
                          (scannedContext environ f runArgs))) = true)
        by (apply existsb_exists; eexists; split; [exact Hin|reflexivity]));
      congruence.
Qed.

(** C4. A run argument [-rm] or [--rm] sets [Rm] and is left out of the
    rewritten arguments, which then hold no auto-remove token at all
    (environment entries of the form [key=value]).  The only command
    [launchContainer] starts is [docker run] with these arguments, so the
    daemon is not asked to remove the container on exit; [rmContainer]
    does it, by id and with force. *)
Theorem rm_is_stripped `{FlagGrammar}
        (environ own runArgs : list string) (f : OwnFlags) :
  ~ In "run" own ->
  flags_Parse own = inl f ->
  forallb isKeyValue environ = true ->
  existsb isRm runArgs = true ->
  exists c,
    parseContext environ (own ++ "run" :: runArgs) = inl c /\
    Rm c = true /\
    ~ In "-rm" (Args c) /\ ~ In "--rm" (Args c) /\
    forall (W : Type) (P : Platform W) (w : W),
      (forall name args,
          In (EvCommand name args) (events (launchContainer environ c w)) ->
          name = "docker" /\ args = "run" :: Args c /\
          existsb isRm args = false) /\
      (forall c' client,
          Rm c' = Rm c ->
          getClient environ c' = inl client ->
          exists err w',
            rmContainer environ c' w =
            mkRun (Returned err) w'
                  [EvRemoveContainer
                     {| dockerClient.RmID := Id c';
                        dockerClient.Force := true |} err]).
Proof.
  intros Hown Hf Henv Hrm.
  destruct (rm_stripped_args environ own runArgs f Hown Hf Henv Hrm)
    as (c & Hc & HRm & Hex & Hn1 & Hn2).
  exists c. split; [exact Hc|]. split; [exact HRm|].
  split; [exact Hn1|]. split; [exact Hn2|].
  intros W P w. split.
  - intros name args Hin.
    destruct (launchContainer_command environ c w name args Hin) as [-> ->].
    repeat split. exact Hex.
  - intros c' client Hr Hcl. rewrite HRm in Hr.
    destruct (rmContainer_removes environ c' w client Hr Hcl)
      as (err & w' & _ & Hrun).
    now exists err, w'.
Qed.

(** ** The claims on concrete runs *)

Lemma rm_is_stripped_witness :
  exists c,
    @parseContext sampleGrammar ["FOO=bar"]
      ([] ++ "run" :: ["--rm"; "busybox"; "true"]) = inl c /\
    Rm c = true /\
    Args c = ["-d"; "busybox"; "true"] /\
    events (@rmContainer Script (scriptedPlatform 77) ["FOO=bar"]
              (set_Id "abc" c) quiet)
    = [EvRemoveContainer
         {| dockerClient.RmID := "abc"; dockerClient.Force := true |} None].
Proof.
  destruct (@rm_is_stripped sampleGrammar ["FOO=bar"] []
              ["--rm"; "busybox"; "true"]
              {| flag_PidFile := ""; flag_Logs := true;
                 flag_Notify := false; flag_Env := false |})
    as (c & Hc & HRm & _ & _ & _).
  - intros [].
  - reflexivity.
  - reflexivity.
  - reflexivity.
  - exists c. split; [exact Hc|]. split; [exact HRm|].
    inversion Hc. split; reflexivity.
Defined.

Lemma notify_dead_process_witness :
  (value (@notify Script (scriptedPlatform 77) (notifyingContext 5) diesAtOnce)
   = Returned (Some errEarlyExit) /\
   datagrams (events (@notify Script (scriptedPlatform 77)
                        (notifyingContext 5) diesAtOnce)) = []) /\
  (value (@notify Script (scriptedPlatform 77) (notifyingContext 5)
            diesAfterMainPid)
   = Returned (Some errEarlyExit) /\
   ~ In "READY=1"
        (datagrams (events (@notify Script (scriptedPlatform 77)
                              (notifyingContext 5) diesAfterMainPid)))).
Proof.
  split.
  - destruct (@notify_dead_process Script (scriptedPlatform 77)
                (notifyingContext 5) diesAtOnce) as [Hfirst _].
    destruct (Hfirst eq_refl) as (Hv & Hd & _). now split.
  - destruct (@notify_dead_process Script (scriptedPlatform 77)
                (notifyingContext 5) diesAfterMainPid) as [_ Hany].
    apply Hany. cbn. right. left. reflexivity.
Defined.


Lemma attach_accepts_negative_pid_witness :
  exists c',
    @runContainer Script (scriptedPlatform 77) [] (namedContext "web")
                  negativePidReport
    = mkRun (Returned (c', None)) quiet
            [EvInspectContainer "web" (Some (container "abc" true (-1))) None]
    /\ Id c' = "abc" /\ Pid c' = (-1)%Z /\ (Pid c' < 0)%Z.
Proof.
  apply (@attach_accepts_negative_pid Script (scriptedPlatform 77) []
           (namedContext "web") negativePidReport quiet
           {| dockerClient.endpoint := "unix:///var/run/docker.sock" |}
           (container "abc" true (-1))).
  - discriminate.
  - reflexivity.
  - reflexivity.
  - reflexivity.
  - discriminate.
  - reflexivity.
Defined.

Lemma reattach_is_idempotent_witness :
  exists c2,
    @runContainer Script (scriptedPlatform 77) [] (namedContext "web")
                  secondInvocation
    = mkRun (Returned (c2, None)) quiet
            [EvInspectContainer "web" (Some (container "abc" true 12)) None]
    /\ Id c2 = "abc" /\ Pid c2 = 12%Z /\
    forall name args,
      ~ In (EvCommand name args)
           (events (@runContainer Script (scriptedPlatform 77) []
                      (namedContext "web") secondInvocation)).
Proof.
  apply (@reattach_is_idempotent Script (scriptedPlatform 77) []
           (namedContext "web")
           (set_Pid 12
              (set_Id "abc"
                 (set_Cmd (Some ("docker", "run" :: Args (namedContext "web")))
                          (namedContext "web"))))
           firstInvocation secondInvocation quiet
           {| dockerClient.endpoint := "unix:///var/run/docker.sock" |}
           (container "abc" true 12)).
  - discriminate.
  - reflexivity.
  - discriminate.
  - reflexivity.
  - reflexivity.
  - reflexivity.
  - reflexivity.
  - reflexivity.
Defined.

Lemma pidFile_stage_witness :
  @pidFile Script (scriptedPlatform 77) (notifyingContext 0) quiet
  = mkRun (Returned None) quiet [] /\
  exists err,
    events (@pidFile Script (scriptedPlatform 77) (notifyingContext 5) quiet)
    = [EvWriteFile "/run/web.pid" "5" 420 err].
Proof.
  split.
  - destruct (@pidFile_stage Script (scriptedPlatform 77)
                (notifyingContext 0) quiet) as (Hskip & _ & _).
    apply Hskip. right. cbn. lia.
  - destruct (@pidFile_stage Script (scriptedPlatform 77)
                (notifyingContext 5) quiet) as (_ & _ & Hwrite).
    apply Hwrite.
    + discriminate.
    + cbn. lia.
Defined.

(** The adopted negative pid goes on to the supervisor: [notify] sends it
    as the main pid and reports the service as ready. *)
Example negative_pid_is_reported :
  datagrams
    (events (@notify Script (scriptedPlatform 77) (notifyingContext (-1))
               quiet))
  = ["MAINPID=-1"; "READY=1"].
Proof. reflexivity. Qed.

(** ** Further properties of the argument rewriting *)

Lemma findRunArg_cases (args : list string) :
  (findRunArg args = (-1)%Z /\ ~ In "run" args) \/
  (exists own rest,
      args = own ++ "run" :: rest /\ ~ In "run" own /\
      findRunArg args = Z.of_nat (length own)).
Proof.
  induction args as [|a args IH].
  - left. split; [reflexivity | intros []].
  - destruct (String.eqb_spec a "run") as [->|Ha].
    + right. exists [], args. repeat split. intros [].
    + destruct IH as [[Hneg Hno]|(own & rest & -> & Ho & Hi)].
      * left. split.
        -- apply findRunArg_none. intros [E|Hin]; [now apply Ha | now apply Hno].
        -- intros [E|Hin]; [now apply Ha | now apply Hno].
      * right. exists (a :: own), rest.
        assert (Ho' : ~ In "run" (a :: own))
          by (intros [E|Hin]; [now apply Ha | now apply Ho]).
        repeat split; [exact Ho'|].
        apply (findRunArg_app (a :: own) rest Ho').
Qed.

(** X1. [findRunArg] finds the first [run]: it answers [-1] exactly when
    no argument is [run], and otherwise the number of arguments in front
    of the first one. *)
Theorem findRunArg_first_run (args : list string) :
  (findRunArg args = (-1)%Z <-> ~ In "run" args) /\
  (forall own rest,
      args = own ++ "run" :: rest -> ~ In "run" own ->
      findRunArg args = Z.of_nat (length own)) /\
  (-1 <= findRunArg args < Z.of_nat (length args))%Z.
Proof.
  split; [|split].
  - split; [|apply findRunArg_none].
    intros Hneg.
    destruct (findRunArg_cases args) as [[_ Hno]|(own & rest & _ & _ & Hi)];
      [exact Hno | lia].
  - intros own rest -> Ho. now apply findRunArg_app.
  - destruct (findRunArg_cases args) as [[-> _]|(own & rest & -> & _ & ->)].
    + lia.
    + rewrite length_app. cbn [length]. lia.
Qed.

Lemma findRunArg_first_run_witness :
  findRunArg (["-p"; "/run/x.pid"] ++ "run" :: ["img"; "run"])
  = Z.of_nat (length ["-p"; "/run/x.pid"]).
Proof.
  destruct (findRunArg_first_run
              (["-p"; "/run/x.pid"] ++ "run" :: ["img"; "run"]))
    as (_ & Hfirst & _).
  apply (Hfirst ["-p"; "/run/x.pid"] ["img"; "run"]).
  - reflexivity.
  - cbn. intros [E|[E|[]]]; discriminate E.
Defined.

(** X2. [parseContext] fails in two ways only: with the error "run not
    found in arguments" when no argument is [run], and with the error of
    the flag parser, which is given exactly the arguments in front of the
    first [run]. *)
Theorem parseContext_failure `{FlagGrammar}
        (environ args : list string) (err : error) :
  parseContext environ args = inr err <->
  (~ In "run" args /\ err = errRunNotFound) \/
  (exists own rest,
      args = own ++ "run" :: rest /\ ~ In "run" own /\
      flags_Parse own = inr err).
Proof.
  destruct (findRunArg_cases args) as [[Hneg Hno]|(own & rest & -> & Ho & _)].
  - unfold parseContext. rewrite Hneg. cbn. split.
    + intros E. inversion E. now left.
    + intros [[_ ->]|(own & rest & -> & _ & _)]; [reflexivity|].
      exfalso. apply Hno, in_elt.
  - rewrite (parseContext_run environ own rest Ho). split.
    + intros E. right. exists own, rest.
      destruct (flags_Parse own); [discriminate|]. inversion E. now repeat split.
    + intros [[Hno _]|(own' & rest' & E & Ho' & Hf)].
      * exfalso. apply Hno, in_elt.
      * assert (own' = own).
        { pose proof (findRunArg_app own rest Ho) as H1.
          rewrite E in H1. rewrite (findRunArg_app own' rest' Ho') in H1.
          apply Nat2Z.inj in H1.
          apply (f_equal (firstn (length own))) in E.
          rewrite firstn_app, firstn_all, Nat.sub_diag, app_nil_r in E.
          rewrite <- H1, firstn_app, firstn_all, Nat.sub_diag, app_nil_r in E.
          now symmetry. }
        subst own'. now rewrite Hf.
Qed.

Lemma parseContext_failure_witness :
  @parseContext sampleGrammar [] ["--bogus"; "run"; "img"]
  = inr (OtherError "unknown flag") /\
  @parseContext sampleGrammar [] ["-p"; "/run/x.pid"; "img"]
  = inr errRunNotFound.
Proof.
  split.
  - apply (@parseContext_failure sampleGrammar). right.
    exists ["--bogus"], ["img"]. repeat split.
    cbn. intros [E|[]]. discriminate E.
  - apply (@parseContext_failure sampleGrammar). left. split; [|reflexivity].
    cbn. intros [E|[E|[E|[]]]]; discriminate E.
Defined.



(** X4. [Rm] is set exactly when the run arguments hold an auto-remove
    token.  Every other run argument reaches [docker run], wherever it
    stands, and when there is no auto-remove token the run arguments are
    handed on as they are, behind a [-d] if they hold no detach token
    themselves. *)
Theorem run_arguments_pass_through `{FlagGrammar}
        (environ own runArgs : list string) (f : OwnFlags) :
  ~ In "run" own ->
  flags_Parse own = inl f ->
  exists c,
    parseContext environ (own ++ "run" :: runArgs) = inl c /\
    Rm c = existsb isRm runArgs /\
    (forall a, In a runArgs -> isRm a = false -> In a (Args c)) /\
    (existsb isRm runArgs = false ->
     Args c = injected environ c
              ++ (if existsb isDetach runArgs then [] else ["-d"])
              ++ runArgs).
Proof.
  intros Hown Hf.
  rewrite (parseContext_run environ own runArgs Hown), Hf.
  eexists. split; [reflexivity|]. split; [|split].
  - destruct (setupEnvironment_fields environ
                (scannedContext environ f runArgs)) as (_ & _ & _ & -> & _).
    unfold scannedContext. cbn [Rm]. apply scanRunArgs_Rm.
  - intros a Hin Ha. rewrite parsed_Args.
    apply in_or_app. right. apply in_or_app. right.
    apply filter_In. split; [exact Hin|]. unfold notRm. now rewrite Ha.
  - intros Hno. rewrite parsed_Args. do 2 f_equal.
    clear - Hno. induction runArgs as [|a l IH]; [reflexivity|].
    cbn [existsb] in Hno. apply orb_false_iff in Hno as [Ha Hl].
    cbn [filter]. unfold notRm at 1. rewrite Ha. cbn [negb].
    now rewrite (IH Hl).
Qed.

Lemma run_arguments_pass_through_witness :
  exists c,
    @parseContext sampleGrammar []
      ([] ++ "run" :: ["-p"; "80:80"; "nginx"; "-g"; "daemon off;"])
    = inl c /\
    Rm c = false /\
    Args c = ["-d"; "-p"; "80:80"; "nginx"; "-g"; "daemon off;"].
Proof.
  destruct (@run_arguments_pass_through sampleGrammar [] []
              ["-p"; "80:80"; "nginx"; "-g"; "daemon off;"]
              {| flag_PidFile := ""; flag_Logs := true;
                 flag_Notify := false; flag_Env := false |})
    as (c & Hc & Hrm & _ & Hargs).
  - intros [].
  - reflexivity.
  - exists c. split; [exact Hc|]. split; [exact Hrm|].
    rewrite (Hargs eq_refl). inversion Hc. reflexivity.
Defined.

(** X5. Rewriting is idempotent: scanning the arguments that a scan
    produced gives them back, with no second [-d] in front. *)
Theorem scanRunArgs_idempotent (runArgs : list string) :
  scan_newArgs (scanRunArgs (scan_newArgs (scanRunArgs runArgs)))
  = scan_newArgs (scanRunArgs runArgs) /\
  scan_Rm (scanRunArgs (scan_newArgs (scanRunArgs runArgs))) = false.
Proof.
  rewrite scanRunArgs_Rm, !scanRunArgs_newArgs.
  set (d := if existsb isDetach runArgs then [] else ["-d"]).
  assert (Hrm : existsb isRm (d ++ filter notRm runArgs) = false).
  { rewrite existsb_app, existsb_filter_notRm.
    unfold d. now destruct (existsb isDetach runArgs). }
  assert (Hd : existsb isDetach (d ++ filter notRm runArgs) = true).
  { rewrite existsb_app. unfold d.
    destruct (existsb isDetach runArgs) eqn:E; [|reflexivity].
    cbn [existsb orb].
    rewrite existsb_isDetach_count, detachCount_notRm,
      <- existsb_isDetach_count. exact E. }
  split; [|exact Hrm]. rewrite Hd. cbn [app].
  clear Hd. induction (d ++ filter notRm runArgs) as [|a l IH];
    [reflexivity|].
  cbn [existsb] in Hrm. apply orb_false_iff in Hrm as [Ha Hl].
  cbn [filter]. unfold notRm at 1. rewrite Ha. cbn [negb].
  now rewrite (IH Hl).
Qed.

Lemma scanLoop_name_equals (pre : list string) (flag : string)
      (post : list string) (s : Scan) :
  isNameFlag flag = true ->
  strings_Contains flag "=" = true ->
  existsb isNameFlag post = false ->
  scan_name (scanLoop (pre ++ flag :: post) s)
  = nth 1 (strings_SplitN2 flag "=") "".
Proof.
  intros Hf He Hpost. revert s.
  induction pre as [|a pre IH]; intros s.
  - cbn [app scanLoop].
    now rewrite (scanLoop_name_unchanged _ _ Hpost), scanStep_name, Hf, He.
  - cbn [app scanLoop]. apply IH.
Qed.

(** X6. In the form with [=], the name is what follows the first [=] of
    the last name flag, further [=] included; the flag stays among the
    arguments. *)
Theorem name_with_equals `{FlagGrammar}
        (environ own pre : list string) (flag : string) (post : list string)
        (f : OwnFlags) :
  ~ In "run" own ->
  flags_Parse own = inl f ->
  isNameFlag flag = true ->
  strings_Contains flag "=" = true ->
  existsb isNameFlag post = false ->
  exists c key,
    parseContext environ (own ++ "run" :: pre ++ flag :: post) = inl c /\
    flag = (key ++ "=" ++ Name c)%string /\
    hasChar "=" key = false /\
    In flag (Args c).
Proof.
  intros Hown Hf Hflag Heq Hpost.
  rewrite (parseContext_run environ own _ Hown), Hf.
  destruct (SplitN2_second flag Heq) as (key & v & Hsplit & Hfv & Hnth).
  eexists. exists key. split; [reflexivity|].
  rewrite Name_parsed, (scanLoop_name_equals pre flag post _ Hflag Heq Hpost).
  rewrite Hnth. split; [exact Hfv|]. split.
  - unfold strings_SplitN2 in Hsplit.
    destruct (strings_Cut flag "=") as [[a b]|] eqn:E; [|discriminate].
    inversion Hsplit; subst a b.
    now destruct (Cut_eq_sound _ _ _ E).
  - rewrite parsed_Args. apply in_or_app. right. apply in_or_app. right.
    apply filter_In. split; [apply in_elt|].
    unfold notRm. now rewrite (isNameFlag_not_rm _ Hflag).
Qed.

Lemma name_with_equals_witness :
  exists c key,
    @parseContext sampleGrammar []
      ([] ++ "run" :: ["--name"; "old"] ++ "--name=web=1" :: ["img"]) = inl c /\
    "--name=web=1" = (key ++ "=" ++ Name c)%string /\
    hasChar "=" key = false /\
    In "--name=web=1" (Args c).
Proof.
  apply (@name_with_equals sampleGrammar [] [] ["--name"; "old"]
           "--name=web=1" ["img"]
           {| flag_PidFile := ""; flag_Logs := true;
              flag_Notify := false; flag_Env := false |}).
  - intros [].
  - reflexivity.
  - reflexivity.
  - reflexivity.
  - reflexivity.
Defined.

(** ** Further properties of the container stage *)

Section ContainerStage.
Context {W : Type} {P : Platform W}.
Variable environ : list string.

Lemma lookup_paths (c : Context) (w : W) :
  LookupPath environ c w (lookupNamedContainer environ c w).
Proof.
  unfold lookupNamedContainer, InspectContainer, RemoveContainer,
    StartContainer.
  destruct (getClient environ c) as [client|cerr] eqn:Hc;
    [|now constructor].
  run_program.
  destruct (client_InspectContainer client (Name c) w)
    as [[cont err] w1] eqn:Hi. cbn [fst snd value world events].
  destruct err as [err|].
  - destruct (isNoSuchContainer (Some err)) eqn:Hn.
    + destruct err; try discriminate Hn. cbn. eapply LookupAbsent; eassumption.
    + cbn. eapply LookupFailed; eassumption.
  - cbn [isNoSuchContainer]. destruct cont as [cont|].
    2:{ cbn. eapply LookupNil; eassumption. }
    destruct (dockerClient.Running (dockerClient.State_ cont)) eqn:Hr.
    { cbn. eapply LookupRunning; eassumption. }
    destruct (Rm c) eqn:Hrm.
    { destruct (client_RemoveContainer client _ w1) as [rerr w2] eqn:Hrem.
      cbn. eapply LookupRemoved; eassumption. }
    destruct (client_StartContainer client _ _ w1) as [serr w2] eqn:Hs.
    cbn [fst snd value world events].
    destruct serr as [serr|].
    { cbn. eapply LookupStartFailed; eassumption. }
    cbn [value world events].
    destruct (client_InspectContainer client (Name c) w2)
      as [[cont2 err2] w3] eqn:Hi2. cbn [fst snd value world events].
    destruct err2 as [err2|].
    { cbn. eapply LookupReinspectFailed; eassumption. }
    destruct cont2 as [cont2|]; cbn.
    + eapply LookupRestarted; eassumption.
    + eapply LookupReinspectNil; eassumption.
Qed.

Lemma launch_paths (c : Context) (w : W) :
  LaunchPath environ c w (launchContainer environ c w).
Proof.
  unfold launchContainer, Command. run_program.
  destruct (exec_Command "docker" ("run" :: Args c) w) as [r w1] eqn:He.
  cbn [value world events].
  destruct (StderrPipe r) as [err|] eqn:H1.
  { cbn. eapply LaunchCommandFailed; [eassumption | now left]. }
  destruct (StdoutPipe r) as [err|] eqn:H2.
  { cbn. eapply LaunchCommandFailed; [eassumption | right; now left]. }
  destruct (Start r) as [err|] eqn:H3.
  { cbn. eapply LaunchCommandFailed; [eassumption | right; right; now left]. }
  destruct (ReadAll r) as [bytes [err|]] eqn:H4.
  { cbn. eapply LaunchCommandFailed; [eassumption|].
    right; right; right. rewrite H4. now repeat split. }
  assert (Hb : bytes = fst (ReadAll r)) by now rewrite H4.
  assert (Hs : snd (ReadAll r) = None) by now rewrite H4.
  destruct (Wait r) as [err|] eqn:H5.
  { cbn. rewrite Hb. eapply LaunchExited; try eassumption. left. eauto. }
  destruct (Success r) eqn:H6; cbn [negb].
  2:{ cbn. rewrite Hb. eapply LaunchExited; try eassumption. right. auto. }
  destruct (getContainerPid environ
              (set_Id (strings_TrimSpace bytes)
                      (set_Cmd (Some ("docker", "run" :: Args c)) c)) w1)
    as [[[pid perr]|] w2 evs] eqn:Hg.
  - cbn. rewrite ?app_nil_r. subst bytes.
    eapply LaunchResolved; try eassumption. reflexivity.
  - exfalso. revert Hg. unfold getContainerPid, InspectContainer.
    destruct (getClient environ _); [|discriminate].
    run_program.
    destruct (client_InspectContainer _ _ w1) as [[[cont|] [e|]] w'];
      cbn; try discriminate.
    destruct (_ <=? 0)%Z; discriminate.
Qed.
End ContainerStage.

Section ContainerProperties.
Context {W : Type} {P : Platform W}.
Variable environ : list string.

Lemma bind_run {A B : Type} (m : M W A) (k : A -> M W B) (w : W) :
  bind m k w =
  match value (m w) with
  | Returned a =>
      mkRun (value (k a (world (m w)))) (world (k a (world (m w))))
            (events (m w) ++ events (k a (world (m w))))
  | Panicked => mkRun Panicked (world (m w)) (events (m w))
  end.
Proof. reflexivity. Qed.

(** How [runContainer] is put together from its two stages. *)
Lemma runContainer_stages (c : Context) (w : W) :
  runContainer environ c w =
  let r1 := (if negb (String.eqb (Name c) "")
             then lookupNamedContainer environ c else ret (c, None)) w in
  match value r1 with
  | Panicked => mkRun Panicked (world r1) (events r1)
  | Returned (c1, Some e) =>
      mkRun (Returned (c1, Some e)) (world r1) (events r1)
  | Returned (c1, None) =>
      let r2 := (if String.eqb (Id c1) ""
                 then launchContainer environ c1 else ret (c1, None))
                  (world r1) in
      match value r2 with
      | Panicked => mkRun Panicked (world r2) (events r1 ++ events r2)
      | Returned (c2, Some e) =>
          mkRun (Returned (c2, Some e)) (world r2) (events r1 ++ events r2)
      | Returned (c2, None) =>
          mkRun (Returned (c2, if (Pid c2 =? 0)%Z
                               then Some errPidIsZero else None))
                (world r2) (events r1 ++ events r2)
      end
  end.
Proof.
  unfold runContainer. rewrite bind_run. cbv zeta.
  destruct ((if negb (String.eqb (Name c) "")
             then lookupNamedContainer environ c else ret (c, None)) w)
    as [[[c1 [e1|]]|] w1 ev1]; cbn [value world events].
  - unfold ret. cbn [value world events]. now rewrite app_nil_r.
  - rewrite bind_run.
    destruct ((if String.eqb (Id c1) ""
               then launchContainer environ c1 else ret (c1, None)) w1)
      as [[[c2 [e2|]]|] w2 ev2]; cbn [value world events].
    + unfold ret. cbn [value world events]. now rewrite app_nil_r.
    + destruct (Pid c2 =? 0)%Z; unfold ret; cbn [value world events];
        now rewrite app_nil_r.
    + reflexivity.
  - reflexivity.
Qed.

Lemma getContainerPid_calls (c : Context) (w : W) :
  length (events (getContainerPid environ c w)) <= 1.
Proof.
  unfold getContainerPid, InspectContainer.
  destruct (getClient environ c) as [client|cerr]; [|cbn; lia].
  run_program.
  destruct (client_InspectContainer client (Id c) w)
    as [[[cont|] [e|]] w1]; cbn; try lia.
  destruct (_ <=? 0)%Z; cbn; lia.
Qed.

(** X7. [getContainerPid] always returns: a pid and an error of which
    exactly one is set.  Without error the pid is positive; with an error
    it is 0.  It makes at most one call, an inspection by the id of the
    context, and a container reported with a pid that is not positive
    gives the error "Pid is <pid> for container <id>". *)
Theorem getContainerPid_result (c : Context) (w : W) :
  exists pid err,
    value (getContainerPid environ c w) = Returned (pid, err) /\
    (err = None -> (0 < pid)%Z) /\
    (err <> None -> pid = 0%Z) /\
    (events (getContainerPid environ c w) = [] \/
     exists cont e,
       events (getContainerPid environ c w)
       = [EvInspectContainer (Id c) cont e]) /\
    (forall cont,
        In (EvInspectContainer (Id c) (Some cont) None)
           (events (getContainerPid environ c w)) ->
        (dockerClient.Pid (dockerClient.State_ cont) <= 0)%Z ->
        err = Some (errPidIs (dockerClient.Pid (dockerClient.State_ cont))
                             (Id c))).
Proof.
  unfold getContainerPid, InspectContainer.
  destruct (getClient environ c) as [client|cerr].
  2:{ exists 0%Z, (Some cerr). cbn. repeat split; try discriminate; auto.
      intros cont []. }
  run_program.
  destruct (client_InspectContainer client (Id c) w)
    as [[[cont|] [e|]] w1]; cbn.
  - exists 0%Z, (Some e). repeat split; try discriminate; eauto.
    intros cont' [E|[]]. discriminate E.
  - destruct (Z.leb_spec (dockerClient.Pid (dockerClient.State_ cont)) 0)
      as [Hle|Hgt]; cbn.
    + eexists 0%Z, _. repeat split; try discriminate; eauto.
      intros cont' [E|[]] _. inversion E. reflexivity.
    + eexists _, None. repeat split; eauto; try congruence.
      intros cont' [E|[]] Hle. inversion E. subst. lia.
  - exists 0%Z, (Some e). repeat split; try discriminate; eauto.
    intros cont' [E|[]]. discriminate E.
  - eexists 0%Z, _. repeat split; try discriminate; eauto.
    intros cont' [E|[]]. discriminate E.
Qed.

(** X8. [lookupNamedContainer] removes only a container that the
    inspection reported as not running, and only with [Rm] set; it starts
    only a container reported as not running, with [Rm] not set and with
    the host configuration of the report; it never starts a command. *)
Theorem lookup_touches_only_stopped (c : Context) (w : W) :
  let r := lookupNamedContainer environ c w in
  (forall opts err,
      In (EvRemoveContainer opts err) (events r) ->
      Rm c = true /\ value r = Returned (c, err) /\
      exists cont,
        In (EvInspectContainer (Name c) (Some cont) None) (events r) /\
        dockerClient.Running (dockerClient.State_ cont) = false /\
        opts = {| dockerClient.RmID := dockerClient.ID cont;
                  dockerClient.Force := true |}) /\
  (forall id hc err,
      In (EvStartContainer id hc err) (events r) ->
      Rm c = false /\
      exists cont,
        In (EvInspectContainer (Name c) (Some cont) None) (events r) /\
        dockerClient.Running (dockerClient.State_ cont) = false /\
        id = dockerClient.ID cont /\ hc = dockerClient.HostConfig_ cont) /\
  (forall name args, ~ In (EvCommand name args) (events r)).
Proof.
  intros r. subst r.
  destruct (lookup_paths environ c w); cbn [events value];
    (split; [|split]); intros.
  all: match goal with
       | Hin : In _ _ |- _ => in_events Hin
       | |- ~ In _ _ => intros Hin; in_events Hin
       end.
  all: match goal with
       | E : _ = _ :> Event |- _ => inversion E; subst; clear E
       end.
  all: repeat split; try assumption; try reflexivity.
  all: eexists; repeat split; try eassumption; try reflexivity;
    cbn [In]; auto.
Qed.
End ContainerProperties.

Section RunContainerProperties.
Context {W : Type} {P : Platform W}.
Variable environ : list string.

(** X9. A named container found stopped, without [Rm], is started with
    its own host configuration and inspected again; the id and pid of
    that second report are adopted.  No command is started, and the run
    is a success unless the new pid is 0. *)
Theorem restart_then_attach (c : Context) (w w1 w2 w3 : W)
        (client : dockerClient.Client) (cont cont2 : dockerClient.Container) :
  Name c <> "" ->
  Rm c = false ->
  getClient environ c = inl client ->
  client_InspectContainer client (Name c) w = ((Some cont, None), w1) ->
  dockerClient.Running (dockerClient.State_ cont) = false ->
  client_StartContainer client (dockerClient.ID cont)
    (dockerClient.HostConfig_ cont) w1 = (None, w2) ->
  client_InspectContainer client (Name c) w2 = ((Some cont2, None), w3) ->
  dockerClient.ID cont2 <> "" ->
  runContainer environ c w =
  mkRun (Returned
           (set_Pid (dockerClient.Pid (dockerClient.State_ cont2))
                    (set_Id (dockerClient.ID cont2) c),
            if (dockerClient.Pid (dockerClient.State_ cont2) =? 0)%Z
            then Some errPidIsZero else None))
        w3
        [EvInspectContainer (Name c) (Some cont) None;
         EvStartContainer (dockerClient.ID cont)
           (dockerClient.HostConfig_ cont) None;
         EvInspectContainer (Name c) (Some cont2) None].
Proof.
  intros Hn Hrm Hc Hi Hr Hs Hi2 Hid.
  assert (Hl : lookupNamedContainer environ c w =
               mkRun (Returned
                        (set_Pid (dockerClient.Pid (dockerClient.State_ cont2))
                                 (set_Id (dockerClient.ID cont2) c), None))
                     w3
                     [EvInspectContainer (Name c) (Some cont) None;
                      EvStartContainer (dockerClient.ID cont)
                        (dockerClient.HostConfig_ cont) None;
                      EvInspectContainer (Name c) (Some cont2) None]).
  { unfold lookupNamedContainer, InspectContainer, StartContainer.
    rewrite Hc. run_program. rewrite Hi. cbn [fst snd value world events].
    cbn [isNoSuchContainer]. rewrite Hr, Hrm, Hs.
    cbn [fst snd value world events]. rewrite Hi2. reflexivity. }
  rewrite runContainer_stages. apply String.eqb_neq in Hn. rewrite Hn.
  cbn [negb]. rewrite Hl. cbv zeta. cbn [value world events set_Pid set_Id Id].
  apply String.eqb_neq in Hid. rewrite Hid.
  unfold ret. cbn [value world events Pid]. rewrite app_nil_r.
  reflexivity.
Qed.

(** X10. When the inspection by name leaves the context as it was and
    reports no error (no such container, or a stopped one that was
    removed because of [Rm]), [runContainer] goes on to launch: its calls
    are those of the lookup followed by those of [launchContainer] on the
    world the lookup left. *)
Theorem lookup_miss_then_launch (c : Context) (w : W) :
  Name c <> "" ->
  Id c = "" ->
  forall w1 evs,
    lookupNamedContainer environ c w = mkRun (Returned (c, None)) w1 evs ->
    events (runContainer environ c w)
    = evs ++ events (launchContainer environ c w1) /\
    exists tl,
      events (runContainer environ c w)
      = evs ++ EvCommand "docker" ("run" :: Args c) :: tl.
Proof.
  intros Hn Hid w1 evs Hl.
  assert (He : events (runContainer environ c w)
               = evs ++ events (launchContainer environ c w1)).
  { rewrite runContainer_stages. apply String.eqb_neq in Hn. rewrite Hn.
    cbn [negb]. rewrite Hl. cbv zeta. cbn [value world events].
    rewrite Hid. cbn [String.eqb].
    destruct (launchContainer environ c w1) as [[[c2 [e2|]]|] w2 ev2];
      reflexivity. }
  split; [exact He|]. rewrite He.
  destruct (launch_paths environ c w1); cbn [events]; eauto.
Qed.

(** X11. When the [docker run] command cannot be started, read or waited
    for, [launchContainer] reports that error after the one command: no
    container is inspected and the pid of the context is not touched. *)
Theorem launch_failure_skips_inspection (c : Context) (w : W) :
  let r := fst (exec_Command "docker" ("run" :: Args c) w) in
  (StderrPipe r <> None \/ StdoutPipe r <> None \/ Start r <> None \/
   snd (ReadAll r) <> None \/ Wait r <> None) ->
  events (launchContainer environ c w)
  = [EvCommand "docker" ("run" :: Args c)] /\
  exists c' err,
    value (launchContainer environ c w) = Returned (c', Some err) /\
    Pid c' = Pid c /\
    world (launchContainer environ c w)
    = snd (exec_Command "docker" ("run" :: Args c) w).
Proof.
  intros r Hfail. subst r.
  destruct (launch_paths environ c w) as
      [r w1 err He Hc|r w1 result He H1 H2 H3 H4 Hw
       |r w1 c1 pid err w2 evs He H1 H2 H3 H4 H5 H6 Hc1 Hg];
    rewrite He in *; cbn [fst snd] in *; cbn [value world events].
  - split; [reflexivity|]. eexists _, err. repeat split.
  - destruct Hw as [(err & Hw & ->)|(Hw & _ & _)].
    + split; [reflexivity|]. eexists _, err. repeat split.
    + exfalso. rewrite H1, H2, H3, H4, Hw in Hfail.
      destruct Hfail as [F|[F|[F|[F|F]]]]; now apply F.
  - exfalso. rewrite H1, H2, H3, H4, H5 in Hfail.
    destruct Hfail as [F|[F|[F|[F|F]]]]; now apply F.
Qed.

(** X12. A launch without a name, from a context whose pid is still 0,
    only succeeds with a positive pid: the id is the trimmed output of
    the [docker run] command, and the pid comes from the inspection of
    that id. *)
Theorem fresh_launch_pid_positive (c c' : Context) (w : W) :
  Name c = "" ->
  Pid c = 0%Z ->
  value (runContainer environ c w) = Returned (c', None) ->
  (0 < Pid c')%Z /\
  Id c' = strings_TrimSpace
            (fst (ReadAll (fst (exec_Command "docker" ("run" :: Args c) w)))) /\
  Cmd c' = Some ("docker", "run" :: Args c) /\
  exists cont,
    In (EvInspectContainer (Id c') (Some cont) None)
       (events (runContainer environ c w)) /\
    dockerClient.Pid (dockerClient.State_ cont) = Pid c'.
Proof.
  intros Hn Hp Hv. rewrite runContainer_stages in Hv |- *.
  rewrite Hn in Hv |- *. cbn [String.eqb negb] in Hv |- *.
  cbv zeta in Hv |- *. unfold ret in Hv |- *.
  cbn [value world events app] in Hv |- *.
  destruct (String.eqb (Id c) "") eqn:Hid.
  2:{ cbn [value world events] in Hv. rewrite Hp in Hv. discriminate Hv. }
  destruct (launch_paths environ c w) as
      [r w1 err He Hc|r w1 result He H1 H2 H3 H4 Hw
       |r w1 c1 pid err w2 evs He H1 H2 H3 H4 H5 H6 Hc1 Hg];
    cbn [value world events] in Hv |- *.
  - discriminate Hv.
  - destruct Hw as [(err & _ & ->)|(_ & _ & ->)]; [discriminate Hv|].
    cbn [Pid set_Id set_Cmd] in Hv. rewrite Hp in Hv. discriminate Hv.
  - destruct err as [err|]; [discriminate Hv|].
    cbn [Pid set_Pid] in Hv.
    destruct (Z.eqb_spec pid 0) as [Hz|Hz]; [discriminate Hv|].
    inversion Hv; subst c'. clear Hv.
    assert (Hpos : (0 < pid)%Z).
    { apply (getContainerPid_positive environ c1 w1). now rewrite Hg. }
    rewrite He. cbn [fst]. subst c1. cbn [Pid Id Cmd set_Pid set_Id set_Cmd].
    repeat split; try assumption.
    revert Hg. unfold getContainerPid, InspectContainer.
    destruct (getClient environ _) as [client|cerr]; [|discriminate].
    run_program. cbn [Id set_Id set_Cmd].
    destruct (client_InspectContainer client _ w1) as [[[cont|] [e|]] w'];
      cbn [fst snd value world events app]; try discriminate.
    destruct (_ <=? 0)%Z; cbn [value world events]; [discriminate|].
    intros E. inversion E. subst. exists cont. split; [|reflexivity].
    cbn [In]. right. left. reflexivity.
Qed.
End RunContainerProperties.

Section Frame.
Context {W : Type} {P : Platform W}.
Variable environ : list string.

Lemma sameSettings_refl (c : Context) : sameSettings c c.
Proof. unfold sameSettings. now repeat split. Qed.

Lemma sameSettings_trans (a b c : Context) :
  sameSettings a b -> sameSettings b c -> sameSettings a c.
Proof.
  unfold sameSettings. intros H1 H2.
  repeat match goal with H : _ /\ _ |- _ => destruct H end.
  repeat split; congruence.
Qed.

Lemma lookup_settings (c c' : Context) (err : option error) (w : W) :
  value (lookupNamedContainer environ c w) = Returned (c', err) ->
  sameSettings c c' /\ Cmd c' = Cmd c.
Proof.
  destruct (lookup_paths environ c w); cbn [value]; intros E;
    inversion E; subst; split; try reflexivity;
    unfold sameSettings; now repeat split.
Qed.

Lemma launch_settings (c c' : Context) (err : option error) (w : W) :
  value (launchContainer environ c w) = Returned (c', err) ->
  sameSettings c c' /\ Cmd c' = Some ("docker", "run" :: Args c).
Proof.
  destruct (launch_paths environ c w); cbn [value]; intros E;
    inversion E; subst; split; try reflexivity;
    unfold sameSettings; now repeat split.
Qed.

Lemma runContainer_settings (c c' : Context) (err : option error)
      (w : W) :
  value (runContainer environ c w) = Returned (c', err) ->
  sameSettings c c' /\
  (Cmd c' = Cmd c \/ Cmd c' = Some ("docker", "run" :: Args c)).
Proof.
  rewrite runContainer_stages. cbv zeta.
  destruct ((if negb (String.eqb (Name c) "")
             then lookupNamedContainer environ c else ret (c, None)) w)
    as [[[c1 e1]|] w1 ev1] eqn:H1; cbn [value world events];
    [|discriminate].
  assert (S1 : sameSettings c c1 /\ Cmd c1 = Cmd c).
  { destruct (negb (String.eqb (Name c) "")).
    - apply (lookup_settings c c1 e1 w). now rewrite H1.
    - unfold ret in H1. inversion H1. split; [apply sameSettings_refl|easy]. }
  destruct S1 as [S1 C1].
  destruct e1 as [e1|].
  { cbn [value]. intros E. inversion E; subst. split; [exact S1 | now left]. }
  destruct ((if String.eqb (Id c1) ""
             then launchContainer environ c1 else ret (c1, None)) w1)
    as [[[c2 e2]|] w2 ev2] eqn:H2; cbn [value world events];
    [|discriminate].
  assert (S2 : sameSettings c1 c2 /\
               (Cmd c2 = Cmd c1 \/ Cmd c2 = Some ("docker", "run" :: Args c1))).
  { destruct (String.eqb (Id c1) "").
    - destruct (launch_settings c1 c2 e2 w1) as [S C]; [now rewrite H2|].
      split; [exact S | now right].
    - unfold ret in H2. inversion H2.
      split; [apply sameSettings_refl | now left]. }
  destruct S2 as [S2 C2].
  assert (HA : Args c1 = Args c) by apply S1.
  rewrite HA, C1 in C2.
  destruct e2 as [e2|]; cbn [value]; intros E; inversion E; subst;
    (split; [exact (sameSettings_trans _ _ _ S1 S2) | exact C2]).
Qed.

(** X13. [runContainer] changes nothing of the context but the id, the
    pid and the command: whatever it returns, the arguments, the name,
    the flags, the notify socket, the pid file path and the client are
    those it was given. *)
Theorem runContainer_keeps_settings (c c' : Context) (err : option error)
        (w : W) :
  value (runContainer environ c w) = Returned (c', err) ->
  sameSettings c c' /\
  (Cmd c' = Cmd c \/ Cmd c' = Some ("docker", "run" :: Args c)).
Proof. apply runContainer_settings. Qed.
End Frame.

(** X14. Run arguments without a name flag leave the name empty, and
    [runContainer] then looks nothing up: its first call is [docker run]
    with the rewritten arguments, followed by at most one inspection. *)
Theorem unnamed_launches_directly `{FlagGrammar}
        (environ own runArgs : list string) (f : OwnFlags) :
  ~ In "run" own ->
  flags_Parse own = inl f ->
  existsb isNameFlag runArgs = false ->
  exists c,
    parseContext environ (own ++ "run" :: runArgs) = inl c /\
    Name c = "" /\
    forall (W : Type) (P : Platform W) (w : W),
    exists tl,
      events (runContainer environ c w)
      = EvCommand "docker" ("run" :: Args c) :: tl /\
      length tl <= 1.
Proof.
  intros Hown Hf Hno.
  rewrite (parseContext_run environ own runArgs Hown), Hf.
  eexists. split; [reflexivity|].
  set (c := setupEnvironment environ (scannedContext environ f runArgs)).
  assert (Hname : Name c = "").
  { unfold c. rewrite Name_parsed.
    now rewrite (scanLoop_name_unchanged runArgs _ Hno). }
  assert (Hid : Id c = "").
  { unfold c. now destruct (setupEnvironment_fields environ
                              (scannedContext environ f runArgs))
      as (_ & _ & _ & _ & -> & _). }
  split; [exact Hname|]. intros W P w.
  rewrite runContainer_stages. rewrite Hname. cbn [String.eqb negb].
  cbv zeta. unfold ret. cbn [value world events app]. rewrite Hid.
  cbn [String.eqb].
  assert (Hl : exists tl,
             events (launchContainer environ c w)
             = EvCommand "docker" ("run" :: Args c) :: tl /\ length tl <= 1).
  { destruct (launch_paths environ c w) as
        [r w1 err He Hc|r w1 result He H1 H2 H3 H4 Hw
         |r w1 c1 pid err w2 evs He H1 H2 H3 H4 H5 H6 Hc1 Hg];
      cbn [events]; try (exists []; split; [reflexivity | cbn; lia]).
    exists evs. split; [reflexivity|].
    pose proof (getContainerPid_calls environ c1 w1) as Hcalls.
    now rewrite Hg in Hcalls. }
  destruct Hl as (tl & Hl & Hlen). exists tl. split; [|exact Hlen].
  destruct (launchContainer environ c w) as [[[c2 [e2|]]|] w2 ev2];
    cbn [value world events] in *; exact Hl.
Qed.

Lemma unnamed_launches_directly_witness :
  exists c,
    @parseContext sampleGrammar [] ([] ++ "run" :: ["busybox"; "true"])
    = inl c /\
    Name c = "" /\
    exists tl,
      events (@runContainer Script (scriptedPlatform 77) [] c firstInvocation)
      = EvCommand "docker" ["run"; "-d"; "busybox"; "true"] :: tl.
Proof.
  destruct (@unnamed_launches_directly sampleGrammar [] []
              ["busybox"; "true"]
              {| flag_PidFile := ""; flag_Logs := true;
                 flag_Notify := false; flag_Env := false |})
    as (c & Hc & Hn & Hrun).
  - intros [].
  - reflexivity.
  - reflexivity.
  - exists c. split; [exact Hc|]. split; [exact Hn|].
    destruct (Hrun Script (scriptedPlatform 77) firstInvocation)
      as (tl & Hev & _).
    exists tl. rewrite Hev. inversion Hc. reflexivity.
Defined.

(** ** Further properties of the handshake *)

Section NotifyProperties.
Context {W : Type} {P : Platform W}.

(** X15. When [notify] succeeds and a socket is configured, it has sent
    [MAINPID=<pid>] and then, exactly when [Notify] is not set, [READY=1];
    without a socket it sends nothing and dials nothing. *)
Theorem notify_success_datagrams (c : Context) (w : W) :
  value (notify c w) = Returned None ->
  (NotifySocket c <> "" ->
   datagrams (events (notify c w))
   = ("MAINPID=" ++ strconv_Itoa (Pid c))%string
       :: (if Notify c then [] else ["READY=1"])) /\
  (NotifySocket c = "" ->
   datagrams (events (notify c w)) = [] /\
   forall network address err,
     ~ In (EvDial network address err) (events (notify c w))).
Proof.
  intros Hv.
  destruct (notify_paths c w)
    as [e w1 He|e w1 He Hs|e w1 err He Hs|e w1 err He Hs
        |e w1 e2 err2 He Hs He2|e w1 e2 err He Hs He2 Hn
        |e w1 e2 He Hs He2 Hn|e w1 e2 He Hs He2 Hn];
    cbn [value] in Hv; try discriminate Hv; cbn [events]; split;
    intros Hsock; try contradiction.
  - split; [reflexivity|]. intros n a er Hin. in_events Hin.
  - rewrite Hn. reflexivity.
  - rewrite Hn. reflexivity.
Qed.

(** X16. The socket is closed on every path: a run of [notify] that
    dialled with success ends with closing the connection, it dials at
    most once, always the notify socket as [unixgram], and whatever it
    sends starts with [MAINPID=<pid>]. *)
Theorem notify_closes_socket (c : Context) (w : W) :
  (forall network address,
      In (EvDial network address None) (events (notify c w)) ->
      network = "unixgram" /\ address = NotifySocket c /\
      last (events (notify c w)) (EvStat "" None) = EvConnClose) /\
  (In EvConnClose (events (notify c w)) ->
   In (EvDial "unixgram" (NotifySocket c) None) (events (notify c w))) /\
  (forall b, hd_error (datagrams (events (notify c w))) = Some b ->
             b = ("MAINPID=" ++ strconv_Itoa (Pid c))%string).
Proof.
  destruct (notify_paths c w)
    as [e w1 He|e w1 He Hs|e w1 err He Hs|e w1 err He Hs
        |e w1 e2 err2 He Hs He2|e w1 e2 err He Hs He2 Hn
        |e w1 e2 He Hs He2 Hn|e w1 e2 He Hs He2 Hn];
    cbn [events]; (split; [|split]).
  all: match goal with
       | |- forall network address, In _ _ -> _ =>
           intros network address Hin; in_events Hin;
           inversion Hin; subst; now repeat split
       | |- In EvConnClose _ -> _ =>
           intros Hin; in_events Hin; cbn [In]; auto
       | |- forall b, hd_error _ = _ -> _ =>
           intros b Hb; cbn [datagrams flat_map app hd_error] in Hb;
           congruence
       end.
Qed.
End NotifyProperties.

Lemma notify_success_datagrams_witness :
  datagrams (events (@notify Script (scriptedPlatform 77)
                       (notifyingContext 5) quiet))
  = ["MAINPID=5"; "READY=1"].
Proof.
  destruct (@notify_success_datagrams Script (scriptedPlatform 77)
              (notifyingContext 5) quiet eq_refl) as [Hsock _].
  rewrite Hsock; [reflexivity | discriminate].
Defined.

Lemma notify_closes_socket_witness :
  last (events (@notify Script (scriptedPlatform 77)
                  (notifyingContext 5) diesAfterMainPid))
       (EvStat "" None)
  = EvConnClose.
Proof.
  destruct (@notify_closes_socket Script (scriptedPlatform 77)
              (notifyingContext 5) diesAfterMainPid) as [Hdial _].
  apply (Hdial "unixgram" "/run/systemd/notify").
  cbn. right. left. reflexivity.
Defined.

(** ** Supervision *)

Section KeepAlive.
Context {W : Type} {P : Platform W} {Sup : Supervisor W}.
Variable environ : list string.

Lemma keepAliveLoop_polling (fuel : nat) (client : dockerClient.Client)
      (c : Context) (w : W) (v : Outcome (option error)) (w' : W)
      (evs : list LifeEvent) :
  keepAliveLoop fuel client c w = Some (v, w', evs) ->
  Polling (Id c) v evs.
Proof.
  revert w v w' evs. induction fuel as [|fuel IH]; intros w v w' evs H.
  - discriminate H.
  - cbn [keepAliveLoop] in H.
    destruct (client_InspectContainer client (Id c) w)
      as [[[cont|] [err|]] w1].
    + inversion H; subst. now apply PollFailed with (err := err).
    + destruct (dockerClient.Running (dockerClient.State_ cont)) eqn:Hr.
      * destruct (client_WaitContainer client (Id c) w1)
          as [[code werr] w2].
        destruct (keepAliveLoop fuel client c w2) as [[[v2 w3] evs2]|] eqn:Hk;
          [|discriminate H].
        inversion H; subst. apply PollWait; [exact Hr|].
        exact (IH _ _ _ _ Hk).
      * inversion H; subst. now apply PollStopped.
    + inversion H; subst. now apply PollFailed with (err := err).
    + inversion H; subst. now apply PollNil.
Qed.



Lemma polling_success (id : string) (evs : list LifeEvent) :
  Polling id (Returned None) evs ->
  exists evs0 cont,
    evs = evs0 ++ [Call (EvInspectContainer id (Some cont) None)] /\
    dockerClient.Running (dockerClient.State_ cont) = false /\
    length evs = 2 * length (filter (fun ev => match ev with
                                               | EvWaitContainer _ _ _ => true
                                               | Call _ => false
                                               end) evs) + 1.
Proof.
  induction 1 as [cont Hr Hv|cont err Hv|Hv|cont code werr evs Hr Hp IH].
  - exists [], cont. now repeat split.
  - discriminate Hv.
  - discriminate Hv.
  - destruct IH as (evs0 & cont' & -> & Hr' & Hlen).
    exists (Call (EvInspectContainer id (Some cont) None)
              :: EvWaitContainer id code werr :: evs0), cont'.
    repeat split; [assumption|].
    cbn [length filter]. rewrite Hlen. lia.
Qed.

Lemma keepAlive_polls_success (fuel : nat) (c : Context) (w w' : W)
      (evs : list LifeEvent) :
  keepAlive environ fuel c w = Some (Returned None, w', evs) ->
  Logs c || Rm c = true ->
  exists evs0 cont,
    evs = evs0 ++ [Call (EvInspectContainer (Id c) (Some cont) None)] /\
    dockerClient.Running (dockerClient.State_ cont) = false.
Proof.
  unfold keepAlive. intros H Hlr. rewrite Hlr in H.
  destruct (getClient environ c) as [client|err]; [|discriminate H].
  destruct (polling_success _ _ (keepAliveLoop_polling _ _ _ _ _ _ _ H))
    as (evs0 & cont & He & Hr & _).
  now exists evs0, cont.
Qed.

(** X18. When supervision was asked for ([Logs] or [Rm]), [keepAlive]
    returns without error only after an inspection that found the
    container not running, and that inspection is its last call; before
    it there is one wait for every inspection that found the container
    running. *)
Theorem keepAlive_returns_when_stopped (fuel : nat) (c : Context)
        (w w' : W) (evs : list LifeEvent) :
  keepAlive environ fuel c w = Some (Returned None, w', evs) ->
  Logs c || Rm c = true ->
  exists evs0 cont,
    evs = evs0 ++ [Call (EvInspectContainer (Id c) (Some cont) None)] /\
    dockerClient.Running (dockerClient.State_ cont) = false /\
    length evs = 2 * length (filter (fun ev => match ev with
                                               | EvWaitContainer _ _ _ => true
                                               | Call _ => false
                                               end) evs) + 1.
Proof.
  unfold keepAlive. intros H Hlr. rewrite Hlr in H.
  destruct (getClient environ c) as [client|err]; [|discriminate H].
  apply polling_success.
  exact (keepAliveLoop_polling _ _ _ _ _ _ _ H).
Qed.

End KeepAlive.


Lemma keepAlive_returns_when_stopped_witness :
  exists evs0 cont,
    [Call (EvInspectContainer "abc" (Some (container "abc" true 12)) None);
     EvWaitContainer "abc" 0 None;
     Call (EvInspectContainer "abc" (Some (container "abc" false 0)) None)]
    = evs0 ++ [Call (EvInspectContainer "abc" (Some cont) None)] /\
    dockerClient.Running (dockerClient.State_ cont) = false.
Proof.
  destruct (@keepAlive_returns_when_stopped Script (scriptedPlatform 77)
              (scriptedSupervisor 77) [] 2 (notifyingContext 12)
              stopsAfterOneWait quiet _ eq_refl eq_refl)
    as (evs0 & cont & He & Hr & _).
  now exists evs0, cont.
Defined.


(** ** The main sequence *)

Section Main.
Context {G : FlagGrammar} {W : Type} {P : Platform W} {Sup : Supervisor W}.
Variable environ : list string.

(** A run of [mainWithArgs] that ends without error went through every
    stage without error. *)
Lemma main_success_stages (fuel : nat) (args : list string) (w : W)
      (m : MainRun W) (c : Context) :
  mainWithArgs environ fuel args w = Some m ->
  main_value m = Returned (Some c, None) ->
  exists c0 w4 evs4,
    parseContext environ args = inl c0 /\
    let r1 := runContainer environ c0 w in
    let r2 := notify c (world r1) in
    let r3 := pidFile c (world r2) in
    let r5 := rmContainer environ c w4 in
    value r1 = Returned (c, None) /\
    value r2 = Returned None /\
    value r3 = Returned None /\
    keepAlive environ fuel c (world r3) = Some (Returned None, w4, evs4) /\
    value r5 = Returned None /\
    main_events m
    = map Call (events r1 ++ events r2 ++ events r3)
      ++ evs4 ++ map Call (events r5).
Proof.
  unfold mainWithArgs. intros H Hv.
  destruct (parseContext environ args) as [c0|err];
    [|inversion H; subst; discriminate Hv].
  destruct (value (runContainer environ c0 w)) as [[c1 [e1|]]|] eqn:H1;
    try (inversion H; subst; discriminate Hv).
  destruct (value (notify c1 (world (runContainer environ c0 w))))
    as [[e2|]|] eqn:H2; try (inversion H; subst; discriminate Hv).
  destruct (value (pidFile c1
                     (world (notify c1 (world (runContainer environ c0 w))))))
    as [[e3|]|] eqn:H3; try (inversion H; subst; discriminate Hv).
  destruct (keepAlive environ fuel c1 _) as [[[[[e4|]|] w4] evs4]|] eqn:H4;
    try (inversion H; subst; discriminate Hv).
  destruct (value (rmContainer environ c1 w4)) as [[e5|]|] eqn:H5;
    inversion H; subst; cbn [main_value main_events] in *;
    try discriminate Hv.
  inversion Hv; subst c1.
  exists c0, w4, evs4. cbv zeta. now repeat split.
Qed.


(** X21. A run of [mainWithArgs] that ends without error has resolved a
    pid other than 0, kept the settings parsing produced, and, when
    supervision was asked for, seen the container not running; with [Rm]
    its last call is the forced removal of the container by id, which
    succeeded; with a pid file path and a positive pid the pid file was
    written. *)
Theorem main_success (fuel : nat) (args : list string) (w : W)
        (m : MainRun W) (c : Context) :
  mainWithArgs environ fuel args w = Some m ->
  main_value m = Returned (Some c, None) ->
  Pid c <> 0%Z /\
  (exists c0, parseContext environ args = inl c0 /\ sameSettings c0 c) /\
  (Logs c || Rm c = true ->
   exists cont,
     In (Call (EvInspectContainer (Id c) (Some cont) None)) (main_events m) /\
     dockerClient.Running (dockerClient.State_ cont) = false) /\
  (Rm c = true ->
   exists evs0,
     main_events m
     = evs0 ++ [Call (EvRemoveContainer
                        {| dockerClient.RmID := Id c;
                           dockerClient.Force := true |} None)]) /\
  (PidFile c <> "" -> (0 < Pid c)%Z ->
   In (Call (EvWriteFile (PidFile c) (strconv_Itoa (Pid c)) 420 None))
      (main_events m)).
Proof.
  intros H Hv.
  destruct (main_success_stages fuel args w m c H Hv)
    as (c0 & w4 & evs4 & Hp & H1 & H2 & H3 & H4 & H5 & Hev).
  cbv zeta in *.
  split; [exact (runContainer_pid_nonzero environ c0 c w H1)|].
  split; [exists c0; split; [exact Hp|];
          exact (proj1 (runContainer_settings environ c0 c None w H1))|].
  split; [|split].
  - intros Hlr.
    destruct (keepAlive_polls_success environ _ _ _ _ _ H4 Hlr)
      as (evs0 & cont & -> & Hr).
    exists cont. split; [|exact Hr]. rewrite Hev.
    apply in_or_app. right. apply in_or_app. left.
    apply in_or_app. right. now left.
  - intros Hrm.
    set (w1 := world (runContainer environ c0 w)) in *.
    destruct (getClient environ c) as [client|cerr] eqn:Hc.
    + destruct (rmContainer_removes environ c w4 client Hrm Hc)
        as (err & w' & _ & Hrun).
      rewrite Hrun in Hev, H5. cbn [value events map] in Hev, H5.
      inversion H5; subst err. rewrite Hev.
      exists (map Call (events (runContainer environ c0 w)
                        ++ events (notify c w1)
                        ++ events (pidFile c (world (notify c w1))))
              ++ evs4).
      now rewrite <- app_assoc.
    + exfalso. revert H5. unfold rmContainer. rewrite Hrm, Hc. discriminate.
  - intros Hf Hpos.
    destruct (pidFile_writes c (world (notify c
                                  (world (runContainer environ c0 w)))) Hf Hpos)
      as (err & w' & _ & Hrun).
    rewrite Hrun in Hev, H3. cbn [value events] in Hev, H3.
    inversion H3; subst err. rewrite Hev.
    apply in_or_app. left. apply in_map. apply in_or_app. right.
    apply in_or_app. right. now left.
Qed.
End Main.

Section CallOrder.
Context {G : FlagGrammar} {W : Type} {P : Platform W} {Sup : Supervisor W}.
Variable environ : list string.








End CallOrder.

(** ** The further properties on concrete runs *)

Lemma getContainerPid_result_witness :
  exists pid err,
    value (@getContainerPid Script (scriptedPlatform 77) []
             (notifyingContext 0) negativePidReport) = Returned (pid, err) /\
    pid = 0%Z /\ err = Some (errPidIs (-1) "abc").
Proof.
  destruct (@getContainerPid_result Script (scriptedPlatform 77) []
              (notifyingContext 0) negativePidReport)
    as (pid & err & Hv & _ & Hzero & _ & Hneg).
  exists pid, err. split; [exact Hv|].
  assert (He : err = Some (errPidIs (-1) "abc")).
  { apply (Hneg (container "abc" true (-1))).
    - cbn. left. reflexivity.
    - cbn. lia. }
  split; [|exact He]. apply Hzero. rewrite He. discriminate.
Defined.

Lemma lookup_touches_only_stopped_witness :
  Rm (rmNamedContext "web") = true /\
  exists cont,
    dockerClient.Running (dockerClient.State_ cont) = false /\
    {| dockerClient.RmID := "abc"; dockerClient.Force := true |}
    = {| dockerClient.RmID := dockerClient.ID cont;
         dockerClient.Force := true |}.
Proof.
  destruct (@lookup_touches_only_stopped Script (scriptedPlatform 77) []
              (rmNamedContext "web") stoppedThenReplaced) as [Hrm _].
  destruct (Hrm {| dockerClient.RmID := "abc"; dockerClient.Force := true |}
                None) as (H1 & _ & cont & _ & Hr & Ho).
  - cbn. right. left. reflexivity.
  - split; [exact H1|]. now exists cont.
Defined.

Lemma restart_then_attach_witness :
  @runContainer Script (scriptedPlatform 77) [] (namedContext "web")
                stoppedThenRestarted
  = mkRun (Returned (set_Pid 34 (set_Id "abc" (namedContext "web")), None))
          quiet
          [EvInspectContainer "web" (Some (container "abc" false 0)) None;
           EvStartContainer "abc" (dockerClient.mkHostConfig "") None;
           EvInspectContainer "web" (Some (container "abc" true 34)) None].
Proof.
  apply (@restart_then_attach Script (scriptedPlatform 77) []
           (namedContext "web") stoppedThenRestarted
           (mkScript [(Some (container "abc" true 34), None)]
                     [] [] [] [] [] [] [])
           (mkScript [(Some (container "abc" true 34), None)]
                     [] [] [] [] [] [] [])
           quiet
           {| dockerClient.endpoint := "unix:///var/run/docker.sock" |}
           (container "abc" false 0) (container "abc" true 34)).
  - discriminate.
  - reflexivity.
  - reflexivity.
  - reflexivity.
  - reflexivity.
  - reflexivity.
  - reflexivity.
  - discriminate.
Defined.

Lemma lookup_miss_then_launch_witness :
  exists tl,
    events (@runContainer Script (scriptedPlatform 77) []
              (rmNamedContext "web") stoppedThenReplaced)
    = [EvInspectContainer "web" (Some (container "abc" false 0)) None;
       EvRemoveContainer
         {| dockerClient.RmID := "abc"; dockerClient.Force := true |} None]
      ++ EvCommand "docker" ["run"; "-d"; "--name"; "web"; "img"] :: tl.
Proof.
  destruct (@lookup_miss_then_launch Script (scriptedPlatform 77) []
              (rmNamedContext "web") stoppedThenReplaced)
    with (w1 := mkScript [(Some (container "def" true 56), None)]
                         [] [] [launchedCmd ("def" ++ String "010" "")]
                         [] [] [] [])
         (evs := [EvInspectContainer "web"
                    (Some (container "abc" false 0)) None;
                  EvRemoveContainer
                    {| dockerClient.RmID := "abc";
                       dockerClient.Force := true |} None])
    as (_ & tl & Hev).
  - discriminate.
  - reflexivity.
  - reflexivity.
  - exists tl. exact Hev.
Defined.

Lemma launch_failure_skips_inspection_witness :
  events (@launchContainer Script (scriptedPlatform 77) []
            (namedContext "web") quiet)
  = [EvCommand "docker" ["run"; "-d"; "--name"; "web"; "img"]].
Proof.
  destruct (@launch_failure_skips_inspection Script (scriptedPlatform 77) []
              (namedContext "web") quiet) as [Hev _].
  - right. right. left. discriminate.
  - exact Hev.
Defined.

Lemma fresh_launch_pid_positive_witness :
  (0 < 12)%Z /\
  Id (set_Pid 12 (set_Id "abc"
        (set_Cmd (Some ("docker", ["run"; "-d"; "img"]))
                 (mkContext ["-d"; "img"] true false "" false false ""
                            "" None 0%Z "" None))))
  = "abc".
Proof.
  destruct (@fresh_launch_pid_positive Script (scriptedPlatform 77) []
              (mkContext ["-d"; "img"] true false "" false false ""
                         "" None 0%Z "" None)
              (set_Pid 12 (set_Id "abc"
                 (set_Cmd (Some ("docker", ["run"; "-d"; "img"]))
                          (mkContext ["-d"; "img"] true false "" false false
                                     "" "" None 0%Z "" None))))
              (mkScript [(Some (container "abc" true 12), None)]
                        [] [] [launchedCmd ("abc" ++ String "010" "")]
                        [] [] [] []))
    as (Hpos & _ & _).
  - reflexivity.
  - reflexivity.
  - reflexivity.
  - split; [exact Hpos | reflexivity].
Defined.

Lemma runContainer_keeps_settings_witness :
  sameSettings (namedContext "web")
               (set_Pid 34 (set_Id "abc" (namedContext "web"))).
Proof.
  destruct (@runContainer_keeps_settings Script (scriptedPlatform 77) []
              (namedContext "web")
              (set_Pid 34 (set_Id "abc" (namedContext "web"))) None
              stoppedThenRestarted eq_refl) as [Hs _].
  exact Hs.
Defined.


Lemma main_success_witness :
  @mainWithArgs sampleGrammar Script (scriptedPlatform 77)
    (scriptedSupervisor 77) wholeEnviron 5 wholeArgs wholeRun
  = Some wholeRunMain /\
  main_value wholeRunMain = Returned (Some wholeRunContext, None) /\
  Pid wholeRunContext = 12%Z /\
  In (Call (EvWriteFile "/run/x.pid" "12" 420 None))
     (main_events wholeRunMain) /\
  exists evs0,
    main_events wholeRunMain
    = evs0 ++ [Call (EvRemoveContainer
                       {| dockerClient.RmID := "abc";
                          dockerClient.Force := true |} None)].
Proof.
  assert (Hrun : @mainWithArgs sampleGrammar Script (scriptedPlatform 77)
                   (scriptedSupervisor 77) wholeEnviron 5 wholeArgs wholeRun
                 = Some wholeRunMain) by (vm_compute; reflexivity).
  destruct (@main_success sampleGrammar Script (scriptedPlatform 77)
              (scriptedSupervisor 77) wholeEnviron 5 wholeArgs wholeRun
              wholeRunMain wholeRunContext Hrun eq_refl)
    as (_ & _ & _ & Hrm & Hfile).
  split; [exact Hrun|]. split; [reflexivity|]. split; [reflexivity|].
  split.
  - apply Hfile; [discriminate | reflexivity].
  - apply Hrm. reflexivity.
Defined.

